(** * Voice transcriber worker: text cleanup policy and command loop

    A shallow embedding of [text_cleanup.py] and [transcription_server.py].
    Python values are modelled at the types the code manipulates:
    - [str] is [string]; one character of the model is one code point
      (the model covers the code points 0..255), so [String.length] is
      Python's [len];
    - [float] is an IEEE 754 binary64 value, with round-to-nearest-even
      written out on integers ([Float64]) and cross-checked against the
      standard library's [SpecFloat];
    - a decoded JSON document is the inductive [json];
    - [dict] keyed by strings is stdpp's [gmap string];
    - exceptions and the calls made to the external collaborators are
      threaded through a state-and-error monad [M].
    The [logging] calls write to a file and to the error stream only and
    are left out; the input of the loop is the list of its decoded lines,
    and writing a response to standard output does not fail. *)

From Stdlib Require Import ZArith Lia Bool List Ascii String.
From Stdlib Require Import Floats.SpecFloat.
From stdpp Require Import base option list strings gmap.

Local Open Scope string_scope.
Local Open Scope Z_scope.

(** ** Python [str] operations *)

Module PyStr.

(** [str.isspace] on one code point below 256: TAB..CR, FS..US, SPACE,
    NEL (0x85) and NBSP (0xA0). *)
Definition isspace (c : ascii) : bool :=
  let n := N_of_ascii c in
  ((9 <=? n) && (n <=? 13) || (28 <=? n) && (n <=? 32)
   || (n =? 133) || (n =? 160))%N.

(** [s.lstrip()] *)
Fixpoint lstrip (s : string) : string :=
  match s with
  | EmptyString => EmptyString
  | String c r => if isspace c then lstrip r else s
  end.

(** [s.rstrip()] *)
Fixpoint rstrip (s : string) : string :=
  match s with
  | EmptyString => EmptyString
  | String c r =>
      match rstrip r with
      | EmptyString => if isspace c then EmptyString else String c EmptyString
      | r' => String c r'
      end
  end.

(** [s.strip()] *)
Definition strip (s : string) : string := rstrip (lstrip s).

(** [len(s)] *)
Definition len (s : string) : Z := Z.of_nat (String.length s).

(** [s[n:]] for [n >= 0]: never raises, yields the empty string past the end. *)
Fixpoint slice_from (n : nat) (s : string) : string :=
  match n, s with
  | O, _ => s
  | S _, EmptyString => EmptyString
  | S n', String _ r => slice_from n' r
  end.

(** Truthiness of a [str]: non-empty. *)
Definition nonempty (s : string) : bool :=
  match s with EmptyString => false | String _ _ => true end.

(** [all(c.isspace() for c in s)] *)
Fixpoint all_space (s : string) : bool :=
  match s with
  | EmptyString => true
  | String c r => isspace c && all_space r
  end.

Definition nl : string := String (ascii_of_nat 10) EmptyString.

End PyStr.

(** ** Python [float]: finite non-negative binary64 values *)

Module Float64.

(** The value [mant * 2^expo], with [0 <= mant]. *)
Record float := MkFloat { mant : Z; expo : Z }.

(** [m / 2^s] rounded to the nearest integer, ties to the even one ([1 <= s]). *)
Definition round_half_even (m s : Z) : Z :=
  let q := m / 2 ^ s in
  let r := m mod 2 ^ s in
  let h := 2 ^ (s - 1) in
  if r <? h then q
  else if h <? r then q + 1
  else if Z.even q then q else q + 1.

(** Rounding of [m * 2^e] to 53 significant bits. *)
Definition normalize (m e : Z) : float :=
  let d := Z.log2 m + 1 in
  if d <=? 53 then MkFloat m e
  else MkFloat (round_half_even m (d - 53)) (e + (d - 53)).

(** The double nearest to the decimal literal [0.3]. *)
Definition c0_3 : float := MkFloat 5404319552844595 (-54).

(** Conversion of a non-negative [int] operand to [float]; [None] is
    [OverflowError] (the rounded value does not fit binary64). *)
Definition of_int (n : Z) : option float :=
  let f := normalize n 0 in
  if 2 ^ 1024 <=? mant f * 2 ^ expo f then None else Some f.

(** Product of two finite values whose result is in the normal range. *)
Definition mul (x y : float) : float :=
  normalize (mant x * mant y) (expo x + expo y).

(** [n * y] for an [int] [n] and a [float] [y]. *)
Definition int_mul (n : Z) (y : float) : option float :=
  match of_int n with
  | Some x => Some (mul x y)
  | None => None
  end.

(** [c < f] for an [int] [c] and a [float] [f]: Python compares the two
    exactly, without converting [c]. *)
Definition int_lt (c : Z) (f : float) : bool :=
  if 0 <=? expo f then c <? mant f * 2 ^ expo f
  else c * 2 ^ (- expo f) <? mant f.

(** Equality of value with a [SpecFloat] number. *)
Definition same_value (f : float) (g : spec_float) : bool :=
  match g with
  | S754_zero false => mant f =? 0
  | S754_finite false m e =>
      let lo := Z.min (expo f) e in
      mant f * 2 ^ (expo f - lo) =? Z.pos m * 2 ^ (e - lo)
  | _ => false
  end.

(** [n * 0.3] computed by the standard library's IEEE 754 specification. *)
Definition spec_times_0_3 (n : Z) : spec_float :=
  SFmul 53 1024 (binary_normalize 53 1024 n 0 false)
        (SFdiv 53 1024 (binary_normalize 53 1024 3 0 false)
                       (binary_normalize 53 1024 10 0 false)).

Definition agrees_with_spec (n : Z) : bool :=
  match int_mul n c0_3 with
  | Some f => same_value f (spec_times_0_3 n)
  | None => false
  end.

End Float64.

(** ** Decoded JSON documents

    What [json.loads] returns: [None], [bool], [int], [float], [str],
    [list], and [dict] (an association list whose keys are unique, read by
    its first binding). *)

#[warnings="-register-all"]
Inductive json :=
| JNull
| JBool (b : bool)
| JInt (n : Z)
| JFloat (f : spec_float)
| JStr (s : string)
| JArr (items : list json)
| JObj (fields : list (string * json)).

(** Truth value of an object in a condition ([if v], [not v], [v or d]). *)
Definition truthy (v : json) : bool :=
  match v with
  | JNull => false
  | JBool b => b
  | JInt n => negb (n =? 0)
  | JFloat (S754_zero _) => false
  | JFloat _ => true
  | JStr s => PyStr.nonempty s
  | JArr items => match items with [] => false | _ => true end
  | JObj fields => match fields with [] => false | _ => true end
  end.

(** [type(v).__name__] *)
Definition type_name (v : json) : string :=
  match v with
  | JNull => "NoneType"
  | JBool _ => "bool"
  | JInt _ => "int"
  | JFloat _ => "float"
  | JStr _ => "str"
  | JArr _ => "list"
  | JObj _ => "dict"
  end.

(** [v == s] for a string constant [s]. *)
Definition is_str (v : json) (s : string) : bool :=
  match v with
  | JStr s' => String.eqb s' s
  | _ => false
  end.

(** [d.get(key)] on a [dict]: the bound value, [None] without a binding. *)
Fixpoint dict_get (fields : list (string * json)) (key : string) : json :=
  match fields with
  | [] => JNull
  | (k, v) :: rest => if String.eqb k key then v else dict_get rest key
  end.

(** ** Exceptions, collaborators and the world *)

(** [json.JSONDecodeError] is told apart by the loop; every other
    [Exception] is handled alike.  [msg] is [str(e)]. *)
Inductive exn :=
| JSONDecodeError (msg : string)
| Exception (msg : string).

Definition exn_str (e : exn) : string :=
  match e with
  | JSONDecodeError msg => msg
  | Exception msg => msg
  end.

Inductive result (A : Type) :=
| Ok (a : A)
| Raise (e : exn).
Arguments Ok {A} a.
Arguments Raise {A} e.

(** Opaque objects returned by the inference libraries. *)
Definition handle := N.

(** One entry of [result.sentences]; times are Python floats. *)
Record AlignedSentence := {
  sentence_text : string;
  sentence_start : spec_float;
  sentence_end : spec_float;
  sentence_duration : spec_float
}.

(** What [model.transcribe] returns. *)
Record AlignedResult := {
  result_text : string;
  result_sentences : list AlignedSentence
}.

(** A chat message [{"role": ..., "content": ...}]. *)
Record Message := { role : string; content : json }.

(** Calls made to the collaborators, in the order they happen. *)
Inductive Call :=
| CallFromPretrained (model_name : string)
| CallTranscribe (audio_path : string)
| CallLoad (model_name : string)
| CallApplyChatTemplate (messages : list Message)
| CallGenerate (prompt : string) (max_tokens : Z).

(** One entry of the ["sentences"] list of a response. *)
Record SentenceEntry := {
  entry_text : string;
  entry_start : spec_float;
  entry_end : spec_float;
  entry_duration : spec_float
}.

(** The response dictionaries the server builds. *)
Inductive Response :=
| RError (error : string)
    (* {"error": error} *)
| RMessage (message : string)
    (* {"success": True, "message": message} *)
| RTranscription (text : string) (original_text : option string)
                 (sentences : list SentenceEntry).
    (* {"success": True, "text": .., "original_text": .., "sentences": ..} *)

(** The part of the process state the code changes: the calls made so far
    and the lines printed on standard output (one response each). *)
Record World := { calls : list Call; stdout : list Response }.

(** Everything outside the repository.  A collaborator's answer may depend
    on the calls made before it (sampling, caches, a file that appears). *)
Record Env := {
  (* text_cleanup.py: [from mlx_lm import load, generate] succeeded;
     [generate] is always called with temp=0.3 and verbose=False *)
  mlx_lm_installed : bool;
  mlx_load : list Call -> string -> result (handle * handle);
  apply_chat_template : list Call -> handle -> list Message -> result string;
  mlx_generate : list Call -> option handle -> handle -> string -> Z -> result string;
  (* transcription_server.py *)
  text_cleanup_importable : bool;
  from_pretrained : list Call -> string -> result handle;
  asr_transcribe : list Call -> handle -> string -> result AlignedResult;
  (* [Path(p).exists()]: the file system's answer, or the [OSError] it
     raises (name too long, permission denied) *)
  path_exists : string -> result bool;
  json_loads : string -> result json;
  (* the dictionary [load_custom_prompts()] returns *)
  custom_prompts_file : list (string * json);
  (* interpreter text: [repr] of a value, and the [TypeError] of [Path(v)] *)
  py_repr : json -> string;
  path_type_error : json -> string
}.

(** The state-and-error monad of the embedding. *)
Definition M (A : Type) : Type := World -> result A * World.

Definition ret {A} (a : A) : M A := fun w => (Ok a, w).

Definition raise {A} (e : exn) : M A := fun w => (Raise e, w).

Definition bind {A B} (m : M A) (k : A -> M B) : M B :=
  fun w =>
    match m w with
    | (Ok a, w') => k a w'
    | (Raise e, w') => (Raise e, w')
    end.

(** [try: m  except Exception as e: h e] *)
Definition try_except {A} (m : M A) (h : exn -> M A) : M A :=
  fun w =>
    match m w with
    | (Ok a, w') => (Ok a, w')
    | (Raise e, w') => h e w'
    end.

(** A pure computation that may raise. *)
Definition lift {A} (r : result A) : M A := fun w => (r, w).

(** A collaborator call: answered from the history, then logged. *)
Definition call {A} (c : Call) (f : list Call -> result A) : M A :=
  fun w => (f (calls w), {| calls := calls w ++ [c]; stdout := stdout w |}).

(** [print(json.dumps(response)); sys.stdout.flush()] *)
Definition print (r : Response) : M unit :=
  fun w => (Ok tt, {| calls := calls w; stdout := stdout w ++ [r] |}).

Notation "x <- m ;; k" := (bind m (fun x => k))
  (at level 100, m at next level, right associativity).
Notation "m ;;; k" := (bind m (fun _ => k))
  (at level 100, right associativity).

(** ** text_cleanup.py *)

Definition dq : string := String (ascii_of_nat 34) EmptyString.
Definition quoted (s : string) : string := dq +:+ s +:+ dq.
(** The arrow U+2192 of the source lies outside the modelled code points;
    it is spelled by its UTF-8 bytes (none of them is white space). *)
Definition arrow : string := "→".

(** A triple-quoted literal, line by line. *)
Definition text_block (lines : list string) : string :=
  String.concat PyStr.nl lines.

Definition general_prompt : string := text_block [
  "You are a text cleanup assistant. Fix any transcription errors, formatting issues, and improve readability. Keep the same meaning but make it more natural and correctly formatted. Do not add extra information or change the meaning.";
  EmptyString;
  "Rules:";
  "- Fix obvious transcription errors";
  "- Correct punctuation and capitalization";
  "- Keep the text concise";
  "- Return ONLY the cleaned text, nothing else" ].

Definition coding_prompt : string := text_block [
  "You are a coding transcription cleanup assistant. Fix transcription errors and format code-related content properly.";
  EmptyString;
  "Rules:";
  "- Convert spoken file references to proper format (e.g., "
    +:+ quoted "main dot py" +:+ " " +:+ arrow +:+ " "
    +:+ quoted "main.py" +:+ ")";
  "- Format code variable names properly (e.g., "
    +:+ quoted "get user by ID" +:+ " " +:+ arrow +:+ " "
    +:+ quoted "getUserById" +:+ ")";
  "- Use @ symbol for file mentions when appropriate (e.g., "
    +:+ quoted "in the file main dot py" +:+ " " +:+ arrow +:+ " "
    +:+ quoted "in the file @main.py" +:+ ")";
  "- Fix technical terminology and programming language names";
  "- Keep code snippets and commands properly formatted";
  "- Return ONLY the cleaned text, nothing else" ].

Definition punctuation_prompt : string := text_block [
  "You are a punctuation assistant. Add proper punctuation and capitalization to transcribed text while keeping it natural.";
  EmptyString;
  "Rules:";
  "- Add periods, commas, and appropriate punctuation";
  "- Capitalize sentence beginnings and proper nouns";
  "- Keep the exact same words, only fix punctuation";
  "- Return ONLY the cleaned text, nothing else" ].

(** [DEFAULT_PROMPTS] *)
Definition DEFAULT_PROMPTS : gmap string json :=
  <["punctuation" := JStr punctuation_prompt]>
    (<["coding" := JStr coding_prompt]>
       (<["general" := JStr general_prompt]> ∅)).

(** [d.update(other)]: the bindings of [other], in order, each inserted
    or replacing the binding of its key. *)
Definition dict_update (d : gmap string json) (other : list (string * json))
  : gmap string json :=
  foldl (fun m kv => <[kv.1 := kv.2]> m) d other.

(** [self.prompts] as [__init__] leaves it: a copy of the defaults,
    updated with [custom_prompts] when that is a non-empty dictionary. *)
Definition initial_prompts (custom_prompts : option (list (string * json)))
  : gmap string json :=
  match custom_prompts with
  | Some (kv :: rest) => dict_update DEFAULT_PROMPTS (kv :: rest)
  | _ => DEFAULT_PROMPTS
  end.

(** The attributes of a [TextCleanup] object. *)
Record TextCleanup := {
  tc_model_name : string;
  tc_enabled : bool;
  tc_model : option handle;
  tc_tokenizer : option handle;
  tc_prompts : gmap string json
}.

(** The [return] statement [cleanup] left through.  The source returns a
    [str] only; the site is kept beside it to state which path was taken. *)
Inductive return_site :=
| Skipped     (* disabled, empty or blank input: [return text] *)
| Rejected    (* output empty or too short: [return text] *)
| Accepted    (* [return cleaned_text] *)
| Failed.     (* the [except] handler: [return text] *)

(** [wasRefined] of the specification's RefinementOutcome. *)
Definition was_refined (site : return_site) : bool :=
  match site with Accepted => true | _ => false end.

(** [self.prompts.get(prompt_type, self.prompts["general"])]: the default
    is evaluated first ([KeyError] without a ["general"] entry); a list or
    a dict as key is unhashable ([TypeError]); any other key that is not a
    string is bound nowhere, the keys being strings. *)
Definition resolve_prompt (prompts : gmap string json) (prompt_type : json)
  : result json :=
  match prompts !! "general" with
  | None => Raise (Exception "'general'")
  | Some fallback =>
      match prompt_type with
      | JStr name => Ok (default fallback (prompts !! name))
      | JArr _ | JObj _ =>
          Raise (Exception ("unhashable type: '" +:+ type_name prompt_type +:+ "'"))
      | _ => Ok fallback
      end
  end.

(** [len(cleaned_text) < len(text) * 0.3]; the product raises
    [OverflowError] when [len(text)] exceeds the range of a float. *)
Definition shorter_than_30_percent (cleaned_text text : string) : result bool :=
  match Float64.int_mul (PyStr.len text) Float64.c0_3 with
  | Some bound => Ok (Float64.int_lt (PyStr.len cleaned_text) bound)
  | None => Raise (Exception "int too large to convert to float")
  end.

(** [None.apply_chat_template] raises [AttributeError]. *)
Definition loaded (attr : option handle) (name : string) : M handle :=
  match attr with
  | Some h => ret h
  | None => raise (Exception ("'NoneType' object has no attribute '" +:+ name +:+ "'"))
  end.

Section TextCleanupModel.
Variable env : Env.

(** [TextCleanup._load_model]: the handler disables the object and raises
    the fault again, so the caller of the constructor receives it. *)
Definition TextCleanup_load_model (self : TextCleanup) : M TextCleanup :=
  try_except
    (mt <- call (CallLoad (tc_model_name self)) (fun h => mlx_load env h (tc_model_name self)) ;;
     ret {| tc_model_name := tc_model_name self;
            tc_enabled := tc_enabled self;
            tc_model := Some (fst mt);
            tc_tokenizer := Some (snd mt);
            tc_prompts := tc_prompts self |})
    (fun e => raise e).

(** [TextCleanup.__init__] *)
Definition TextCleanup_init (model_name : string) (enabled : bool)
    (custom_prompts : option (list (string * json))) : M TextCleanup :=
  let self := {| tc_model_name := model_name;
                 tc_enabled := enabled && mlx_lm_installed env;
                 tc_model := None;
                 tc_tokenizer := None;
                 tc_prompts := initial_prompts custom_prompts |} in
  if tc_enabled self then TextCleanup_load_model self else ret self.

(** [TextCleanup.cleanup], with the return site beside the returned text. *)
Definition cleanup_traced (self : TextCleanup) (text : string)
    (prompt_type : json) (max_tokens : Z) : M (return_site * string) :=
  if negb (tc_enabled self) || negb (PyStr.nonempty text)
     || negb (PyStr.nonempty (PyStr.strip text))
  then ret (Skipped, text)
  else
    try_except
      (system_prompt <- lift (resolve_prompt (tc_prompts self) prompt_type) ;;
       let messages :=
         [ {| role := "system"; content := system_prompt |};
           {| role := "user";
              content := JStr ("Clean up this text:" +:+ PyStr.nl +:+ PyStr.nl +:+ text) |} ] in
       tokenizer <- loaded (tc_tokenizer self) "apply_chat_template" ;;
       prompt <- call (CallApplyChatTemplate messages)
                      (fun h => apply_chat_template env h tokenizer messages) ;;
       response <- call (CallGenerate prompt max_tokens)
                        (fun h => mlx_generate env h (tc_model self) tokenizer
                                               prompt max_tokens) ;;
       let cleaned_text :=
         PyStr.strip (PyStr.slice_from (String.length prompt) response) in
       if negb (PyStr.nonempty cleaned_text) then ret (Rejected, text)
       else
         too_short <- lift (shorter_than_30_percent cleaned_text text) ;;
         if (too_short : bool) then ret (Rejected, text)
         else ret (Accepted, cleaned_text))
      (fun e => ret (Failed, text)).

(** [TextCleanup.cleanup]: what the caller receives. *)
Definition cleanup (self : TextCleanup) (text : string)
    (prompt_type : json) (max_tokens : Z) : M string :=
  r <- cleanup_traced self text prompt_type max_tokens ;;
  ret (snd r).

(** [TextCleanup.add_custom_prompt] *)
Definition add_custom_prompt (self : TextCleanup) (name prompt : string)
  : TextCleanup :=
  {| tc_model_name := tc_model_name self;
     tc_enabled := tc_enabled self;
     tc_model := tc_model self;
     tc_tokenizer := tc_tokenizer self;
     tc_prompts := <[name := JStr prompt]> (tc_prompts self) |}.

(** [load_custom_prompts]: the file's dictionary, or the empty one when the
    file is missing or unreadable; it raises nothing. *)
Definition load_custom_prompts : M (list (string * json)) :=
  ret (custom_prompts_file env).

End TextCleanupModel.

(** ** transcription_server.py *)

(** The attributes of a [TranscriptionServer] object. *)
Record TranscriptionServer := {
  model : handle;
  model_name : string;
  cleanup_enabled : bool;
  cleanup_prompt : string;
  text_cleanup : option TextCleanup
}.

(** How the loop over [sys.stdin] goes on after one line. *)
Inductive control := Continue | Break.

(** How [run] returns. *)
Inductive exit_reason := QuitReceived | EndOfInput.

(** One dictionary of the ["sentences"] comprehension. *)
Definition sentence_entry (sentence : AlignedSentence) : SentenceEntry :=
  {| entry_text := sentence_text sentence;
     entry_start := sentence_start sentence;
     entry_end := sentence_end sentence;
     entry_duration := sentence_duration sentence |}.

(** [f"{v}"]: [str(v)]; the [repr] of numbers and containers is the
    interpreter's. *)
Definition format_value (py_repr : json -> string) (v : json) : string :=
  match v with
  | JNull => "None"
  | JBool true => "True"
  | JBool false => "False"
  | JStr s => s
  | _ => py_repr v
  end.

(** [command.get(key)]: [AttributeError] unless [command] is a [dict]. *)
Definition py_get (command : json) (key : string) : M json :=
  match command with
  | JObj fields => ret (dict_get fields key)
  | _ => raise (Exception ("'" +:+ type_name command
                           +:+ "' object has no attribute 'get'"))
  end.

Section ServerModel.
Variable env : Env.

(** [TranscriptionServer._load_model]: a fault is logged and raised again. *)
Definition TranscriptionServer_load_model (name : string) : M handle :=
  try_except
    (call (CallFromPretrained name) (fun h => from_pretrained env h name))
    (fun e => raise e).

(** [TranscriptionServer.__init__] *)
Definition TranscriptionServer_init (model_name : string)
    (cleanup_enabled : bool) (cleanup_model cleanup_prompt : string)
  : M TranscriptionServer :=
  m <- TranscriptionServer_load_model model_name ;;
  tc <- (if cleanup_enabled && text_cleanup_importable env
         then try_except
                (custom_prompts <- load_custom_prompts env ;;
                 tc <- TextCleanup_init env cleanup_model true (Some custom_prompts) ;;
                 ret (Some tc))
                (fun e => ret None)
         else ret None) ;;
  ret {| model := m;
         model_name := model_name;
         cleanup_enabled := cleanup_enabled;
         cleanup_prompt := cleanup_prompt;
         text_cleanup := tc |}.

(** [cleanup_prompt or self.cleanup_prompt] *)
Definition prompt_type_of (self : TranscriptionServer) (cleanup_prompt_arg : json)
  : json :=
  if truthy cleanup_prompt_arg then cleanup_prompt_arg
  else JStr (cleanup_prompt self).

(** [TranscriptionServer.transcribe].  [Path(audio_path)] raises
    [TypeError] unless [audio_path] is a string, and [exists()] may raise
    [OSError]; both happen inside the [try]. *)
Definition transcribe (self : TranscriptionServer) (audio_path : json)
    (cleanup_prompt_arg : json) : M Response :=
  try_except
    (path <- (match audio_path with
              | JStr p => ret p
              | _ => raise (Exception (path_type_error env audio_path))
              end) ;;
     found <- lift (path_exists env path) ;;
     if negb (found : bool)
     then ret (RError ("Audio file not found: " +:+ path))
     else
       result <- call (CallTranscribe path)
                      (fun h => asr_transcribe env h (model self) path) ;;
       let original_text := result_text result in
       cleaned_text <-
         (match text_cleanup self with
          | Some tc =>
              if cleanup_enabled self
              then cleanup env tc original_text
                           (prompt_type_of self cleanup_prompt_arg) 512
              else ret original_text
          | None => ret original_text
          end) ;;
       ret (RTranscription
              cleaned_text
              (if negb (String.eqb cleaned_text original_text)
               then Some original_text else None)
              (map sentence_entry (result_sentences result))))
    (fun e => ret (RError ("Transcription failed: " +:+ exn_str e))).

(** The body of the loop in [run] for one line of input. *)
Definition handle_line (self : TranscriptionServer) (line : string) : M control :=
  try_except
    (command <- lift (json_loads env (PyStr.strip line)) ;;
     action <- py_get command "action" ;;
     if is_str action "transcribe" then
       audio_path <- py_get command "audio_path" ;;
       cleanup_prompt_arg <- py_get command "cleanup_prompt" ;;
       response <- (if negb (truthy audio_path)
                    then ret (RError "Missing audio_path parameter")
                    else transcribe self audio_path cleanup_prompt_arg) ;;
       print response ;;; ret Continue
     else if is_str action "ping" then
       print (RMessage "pong") ;;; ret Continue
     else if is_str action "quit" then
       print (RMessage "Shutting down") ;;; ret Break
     else
       print (RError ("Unknown action: " +:+ format_value (py_repr env) action)) ;;;
       ret Continue)
    (fun e =>
       match e with
       | JSONDecodeError msg =>
           print (RError ("Invalid JSON: " +:+ msg)) ;;; ret Continue
       | Exception msg =>
           print (RError ("Server error: " +:+ msg)) ;;; ret Continue
       end).

(** [TranscriptionServer.run]: [for line in sys.stdin], until [break] or
    the end of input. *)
Fixpoint run (self : TranscriptionServer) (lines : list string) : M exit_reason :=
  match lines with
  | [] => ret EndOfInput
  | line :: rest =>
      c <- handle_line self line ;;
      match c with
      | Break => ret QuitReceived
      | Continue => run self rest
      end
  end.

End ServerModel.

(** ** Notions used to state the properties *)

(** The object invariant of [TextCleanup]: a ["general"] prompt is
    registered, and an enabled object has its model loaded. *)
Definition TextCleanup_ok (self : TextCleanup) : Prop :=
  is_Some (tc_prompts self !! "general")
  /\ (tc_enabled self = true -> is_Some (tc_tokenizer self)).

(** The two messages [cleanup] sends for [text] under [system_prompt]. *)
Definition cleanup_messages (system_prompt : json) (text : string) : list Message :=
  [ {| role := "system"; content := system_prompt |};
    {| role := "user";
       content := JStr ("Clean up this text:" +:+ PyStr.nl +:+ PyStr.nl +:+ text) |} ].

(** The candidate [cleanup] extracts from a response to [prompt]. *)
Definition candidate_of (prompt response : string) : string :=
  PyStr.strip (PyStr.slice_from (String.length prompt) response).

(** The refinement step of [transcribe] with the return site of [cleanup]
    ([Skipped] when [cleanup] is not called). *)
Definition refine_traced (env : Env) (self : TranscriptionServer)
    (original_text : string) (cleanup_prompt_arg : json)
  : M (return_site * string) :=
  match text_cleanup self with
  | Some tc =>
      if cleanup_enabled self
      then cleanup_traced env tc original_text
                          (prompt_type_of self cleanup_prompt_arg) 512
      else ret (Skipped, original_text)
  | None => ret (Skipped, original_text)
  end.

(** The binding of [key] that survives [d.update(other)]: the last one. *)
Fixpoint last_binding (other : list (string * json)) (key : string) : option json :=
  match other with
  | [] => None
  | (k, v) :: rest =>
      match last_binding rest key with
      | Some v' => Some v'
      | None => if String.eqb k key then Some v else None
      end
  end.

(** A line that decodes to a dictionary whose action is ["quit"]. *)
Definition quit_request (env : Env) (line : string) : bool :=
  match json_loads env (PyStr.strip line) with
  | Ok (JObj fields) => is_str (dict_get fields "action") "quit"
  | _ => false
  end.

(** start <= end and duration == end - start, in binary64 arithmetic. *)
Definition entry_consistent (e : SentenceEntry) : bool :=
  SFleb (entry_start e) (entry_end e)
  && SFeqb (entry_duration e) (SFsub 53 1024 (entry_end e) (entry_start e)).

Definition sentence_consistent (s : AlignedSentence) : bool :=
  SFleb (sentence_start s) (sentence_end s)
  && SFeqb (sentence_duration s) (SFsub 53 1024 (sentence_end s) (sentence_start s)).

(** Each element starts no later than the next one. *)
Fixpoint starts_ordered (starts : list spec_float) : bool :=
  match starts with
  | a :: (b :: _) as rest => SFleb a b && starts_ordered rest
  | _ => true
  end.

Definition entries_time_ordered (l : list SentenceEntry) : bool :=
  starts_ordered (map entry_start l) && forallb entry_consistent l.

Definition sentences_time_ordered (l : list AlignedSentence) : bool :=
  starts_ordered (map sentence_start l) && forallb sentence_consistent l.

(** ** A concrete environment

    Stand-ins for the collaborators, used to run the model on inputs. *)

Module Demo.

Definition fl (m e : Z) : spec_float := binary_normalize 53 1024 m e false.

Definition request (fields : list (string * string)) : string :=
  "{" +:+ String.concat ", "
            (map (fun kv => quoted kv.1 +:+ ": " +:+ quoted kv.2) fields)
      +:+ "}".

Definition line_quit : string := request [("action", "quit")] +:+ PyStr.nl.
Definition line_ping : string := request [("action", "ping")] +:+ PyStr.nl.
Definition line_missing : string :=
  request [("action", "transcribe"); ("audio_path", "/tmp/missing.wav")] +:+ PyStr.nl.
Definition line_audio : string :=
  request [("action", "transcribe"); ("audio_path", "/tmp/a.wav")] +:+ PyStr.nl.
Definition line_empty_path : string :=
  request [("action", "transcribe"); ("audio_path", EmptyString)] +:+ PyStr.nl.
Definition line_garbage : string := "transcribe /tmp/a.wav" +:+ PyStr.nl.

Definition str_fields (fields : list (string * string)) : json :=
  JObj (map (fun kv => (kv.1, JStr kv.2)) fields).

(** A decoder for the lines above; anything else is malformed. *)
Definition loads (s : string) : result json :=
  if String.eqb s (PyStr.strip line_quit) then
    Ok (str_fields [("action", "quit")])
  else if String.eqb s (PyStr.strip line_ping) then
    Ok (str_fields [("action", "ping")])
  else if String.eqb s (PyStr.strip line_missing) then
    Ok (str_fields [("action", "transcribe"); ("audio_path", "/tmp/missing.wav")])
  else if String.eqb s (PyStr.strip line_audio) then
    Ok (str_fields [("action", "transcribe"); ("audio_path", "/tmp/a.wav")])
  else if String.eqb s (PyStr.strip line_empty_path) then
    Ok (str_fields [("action", "transcribe"); ("audio_path", EmptyString)])
  else Raise (JSONDecodeError "Expecting value: line 1 column 1 (char 0)").

Definition heard : AlignedResult :=
  {| result_text := "hello world this is a test";
     result_sentences :=
       [ {| sentence_text := "hello world";
            sentence_start := fl 0 0;
            sentence_end := fl 3 (-1);
            sentence_duration := fl 3 (-1) |};
         {| sentence_text := "this is a test";
            sentence_start := fl 2 0;
            sentence_end := fl 7 (-1);
            sentence_duration := fl 3 (-1) |} ] |}.

(** An environment built from the three inference entry points. *)
Definition make_env
    (load : string -> result (handle * handle))
    (generate : string -> result string)
    (asr : string -> result AlignedResult) : Env :=
  {| mlx_lm_installed := true;
     mlx_load := fun _ name => load name;
     apply_chat_template := fun _ _ _ => Ok "<chat>";
     mlx_generate := fun _ _ _ prompt _ => generate prompt;
     text_cleanup_importable := true;
     from_pretrained := fun _ _ => Ok 7%N;
     asr_transcribe := fun _ _ path => asr path;
     path_exists := fun p => Ok (String.eqb p "/tmp/a.wav");
     json_loads := loads;
     custom_prompts_file := [];
     py_repr := fun _ => "?";
     path_type_error := fun _ => "expected str, bytes or os.PathLike object" |}.

Definition load_ok (name : string) : result (handle * handle) := Ok (1%N, 2%N).
Definition generate_ok (prompt : string) : result string :=
  Ok (prompt +:+ " Hello world, this is a test. ").
Definition asr_ok (path : string) : result AlignedResult := Ok heard.

(** Every collaborator answers. *)
Definition env : Env := make_env load_ok generate_ok asr_ok.

(** The refinement model cannot be loaded. *)
Definition env_load_fault : Env :=
  make_env (fun _ => Raise (Exception "model not found")) generate_ok asr_ok.

(** Generation fails. *)
Definition env_generate_fault : Env :=
  make_env load_ok (fun _ => Raise (Exception "out of memory")) asr_ok.

(** The audio cannot be decoded. *)
Definition env_asr_fault : Env :=
  make_env load_ok generate_ok (fun _ => Raise (Exception "cannot decode audio")).

(** A file name of 300 characters, longer than a file system allows. *)
Definition long_path : string :=
  "/tmp/" +:+ String.concat EmptyString (replicate 300 "a") +:+ ".wav".

(** The existence check raises [OSError] on a name that is too long. *)
Definition env_check_fault : Env :=
  {| mlx_lm_installed := true;
     mlx_load := fun _ name => load_ok name;
     apply_chat_template := fun _ _ _ => Ok "<chat>";
     mlx_generate := fun _ _ _ prompt _ => generate_ok prompt;
     text_cleanup_importable := true;
     from_pretrained := fun _ _ => Ok 7%N;
     asr_transcribe := fun _ _ path => asr_ok path;
     path_exists := fun p =>
       if (255 <? String.length p)%nat
       then Raise (Exception ("[Errno 36] File name too long: '" +:+ p +:+ "'"))
       else Ok (String.eqb p "/tmp/a.wav");
     json_loads := loads;
     custom_prompts_file := [];
     py_repr := fun _ => "?";
     path_type_error := fun _ => "expected str, bytes or os.PathLike object" |}.

Definition world0 : World := {| calls := []; stdout := [] |}.

(** A loaded, enabled [TextCleanup] with the default prompts. *)
Definition tc : TextCleanup :=
  {| tc_model_name := "mlx-community/Qwen2.5-0.5B-Instruct-4bit";
     tc_enabled := true;
     tc_model := Some 1%N;
     tc_tokenizer := Some 2%N;
     tc_prompts := DEFAULT_PROMPTS |}.

(** A user file that replaces one built-in prompt and adds a new one. *)
Definition overrides : list (string * json) :=
  [ ("coding", JStr "Fix code words."); ("terse", JStr "Shorten.") ].

Definition server : TranscriptionServer :=
  {| model := 7%N;
     model_name := "mlx-community/parakeet-tdt-0.6b-v2";
     cleanup_enabled := true;
     cleanup_prompt := "general";
     text_cleanup := Some tc |}.

End Demo.

(** The number of lines the loop reads: all of them, or those up to and
    including the first quit request. *)
Fixpoint lines_read (env : Env) (lines : list string) : nat :=
  match lines with
  | [] => 0
  | line :: rest =>
      if quit_request env line then 1 else S (lines_read env rest)
  end.

(** ** The entry point *)



(** ** More sample requests *)

Module Sample.

Definition line_bogus : string := Demo.request [("action", "bogus")] +:+ PyStr.nl.
Definition line_no_action : string := Demo.request [("audio_path", "/tmp/a.wav")] +:+ PyStr.nl.
Definition line_no_path : string := Demo.request [("action", "transcribe")] +:+ PyStr.nl.
Definition line_array : string := "[1, 2]" +:+ PyStr.nl.
Definition line_numeric_path : string :=
  "{" +:+ quoted "action" +:+ ": " +:+ quoted "transcribe" +:+ ", "
      +:+ quoted "audio_path" +:+ ": 5}" +:+ PyStr.nl.
Definition line_padded_ping : string := "   " +:+ Demo.line_ping +:+ " ".

(** A decoder for these lines and the ones of [Demo]. *)
Definition loads (s : string) : result json :=
  if String.eqb s (PyStr.strip line_bogus) then
    Ok (Demo.str_fields [("action", "bogus")])
  else if String.eqb s (PyStr.strip line_no_action) then
    Ok (Demo.str_fields [("audio_path", "/tmp/a.wav")])
  else if String.eqb s (PyStr.strip line_no_path) then
    Ok (Demo.str_fields [("action", "transcribe")])
  else if String.eqb s (PyStr.strip line_array) then
    Ok (JArr [JInt 1; JInt 2])
  else if String.eqb s (PyStr.strip line_numeric_path) then
    Ok (JObj [("action", JStr "transcribe"); ("audio_path", JInt 5)])
  else Demo.loads s.

(** [base] with the decoder above. *)
Definition with_loads (base : Env) : Env :=
  {| mlx_lm_installed := mlx_lm_installed base;
     mlx_load := mlx_load base;
     apply_chat_template := apply_chat_template base;
     mlx_generate := mlx_generate base;
     text_cleanup_importable := text_cleanup_importable base;
     from_pretrained := from_pretrained base;
     asr_transcribe := asr_transcribe base;
     path_exists := path_exists base;
     json_loads := loads;
     custom_prompts_file := custom_prompts_file base;
     py_repr := py_repr base;
     path_type_error := path_type_error base |}.

Definition env : Env := with_loads Demo.env.

(** The speech model cannot be loaded. *)
Definition env_startup_fault : Env :=
  {| mlx_lm_installed := true;
     mlx_load := fun _ _ => Ok (1%N, 2%N);
     apply_chat_template := fun _ _ _ => Ok "<chat>";
     mlx_generate := fun _ _ _ prompt _ => Demo.generate_ok prompt;
     text_cleanup_importable := true;
     from_pretrained := fun _ _ => Raise (Exception "no such model");
     asr_transcribe := fun _ _ _ => Ok Demo.heard;
     path_exists := fun p => Ok (String.eqb p "/tmp/a.wav");
     json_loads := loads;
     custom_prompts_file := [];
     py_repr := fun _ => "?";
     path_type_error := fun _ => "expected str, bytes or os.PathLike object" |}.

(** The collaborator echoes the prompt and adds nothing. *)
Definition env_echo : Env :=
  Demo.make_env Demo.load_ok (fun prompt => Ok prompt) Demo.asr_ok.

(** A server whose refinement is switched off. *)
Definition server_plain : TranscriptionServer :=
  {| model := 7%N;
     model_name := "mlx-community/parakeet-tdt-0.6b-v2";
     cleanup_enabled := false;
     cleanup_prompt := "general";
     text_cleanup := Some Demo.tc |}.

End Sample.

(** * Properties *)

(** ** The 30% comparison in binary64 arithmetic *)
Module Float64Facts.
Import Float64.

Lemma round_half_even_le m s x :
  0 <= m -> 1 <= s -> m <= x * 2 ^ s -> round_half_even m s <= x.
Proof.
  intros Hm Hs Hle. unfold round_half_even.
  assert (HP : 0 < 2 ^ s) by (apply Z.pow_pos_nonneg; lia).
  assert (Hh : 0 < 2 ^ (s - 1)) by (apply Z.pow_pos_nonneg; lia).
  pose proof (Z.div_mod m (2 ^ s) ltac:(lia)) as Hdm.
  pose proof (Z.mod_pos_bound m (2 ^ s) HP) as Hr.
  set (q := m / 2 ^ s) in *. set (r := m mod 2 ^ s) in *.
  assert (Hq : q <= x) by nia.
  destruct (r <? 2 ^ (s - 1)) eqn:E1; [exact Hq|].
  apply Z.ltb_ge in E1.
  assert (q < x) by nia.
  destruct (2 ^ (s - 1) <? r); [lia|].
  destruct (Z.even q); lia.
Qed.

Lemma round_half_even_gt m s x :
  0 <= m -> 1 <= s -> x * 2 ^ s + 2 ^ (s - 1) < m -> x < round_half_even m s.
Proof.
  intros Hm Hs Hlt. unfold round_half_even.
  assert (HP : 0 < 2 ^ s) by (apply Z.pow_pos_nonneg; lia).
  assert (Hh : 0 < 2 ^ (s - 1)) by (apply Z.pow_pos_nonneg; lia).
  assert (HPh : 2 ^ s = 2 * 2 ^ (s - 1)).
  { replace s with (Z.succ (s - 1)) at 1 by lia. apply Z.pow_succ_r. lia. }
  pose proof (Z.div_mod m (2 ^ s) ltac:(lia)) as Hdm.
  pose proof (Z.mod_pos_bound m (2 ^ s) HP) as Hr.
  set (q := m / 2 ^ s) in *. set (r := m mod 2 ^ s) in *.
  set (P := 2 ^ s) in *. set (h := 2 ^ (s - 1)) in *.
  assert (Hq : x <= q) by nia.
  destruct (r <? h) eqn:E1.
  - apply Z.ltb_lt in E1. nia.
  - apply Z.ltb_ge in E1. destruct (h <? r) eqn:E2.
    + lia.
    + apply Z.ltb_ge in E2. assert (r = h) by lia. subst r.
      assert (x < q) by nia. destruct (Z.even q); lia.
Qed.

(** [n * 0.3], for a length that a string can have, is computed without
    overflow and compares with an integer as the exact three tenths do. *)
Lemma int_lt_times_0_3 n c :
  1 <= n < 2 ^ 51 -> 0 <= c ->
  exists f, int_mul n c0_3 = Some f /\ int_lt c f = (10 * c <? 3 * n).
Proof.
  intros [Hn1 Hn2] Hc.
  assert (Hlog : Z.log2 n < 51) by (apply Z.log2_lt_pow2; lia).
  assert (Hof : of_int n = Some (MkFloat n 0)).
  { unfold of_int, normalize.
    destruct (Z.log2 n + 1 <=? 53) eqn:E; [|apply Z.leb_gt in E; lia].
    cbn [mant expo]. rewrite Z.pow_0_r, Z.mul_1_r.
    destruct (2 ^ 1024 <=? n) eqn:E2; [|reflexivity].
    apply Z.leb_le in E2.
    assert (2 ^ 51 <= 2 ^ 1024) by (apply Z.pow_le_mono_r; lia). lia. }
  unfold int_mul. rewrite Hof. eexists; split; [reflexivity|].
  unfold mul, c0_3. cbn [mant expo].
  set (C := 5404319552844595).
  set (m := n * C).
  assert (HC : 10 * C = 3 * 2 ^ 54 - 2) by reflexivity.
  assert (HClo : 2 ^ 52 <= C) by (subst C; apply Z.leb_le; reflexivity).
  assert (HChi : C < 2 ^ 53) by (subst C; apply Z.ltb_lt; reflexivity).
  assert (Hm0 : 0 < m) by (subst m; nia).
  assert (Hmlo : 2 ^ 52 <= m) by (subst m; nia).
  assert (Hmhi : m < 2 ^ 104).
  { replace (2 ^ 104) with (2 ^ 51 * 2 ^ 53) by reflexivity. subst m. nia. }
  assert (Hl1 : 52 <= Z.log2 m) by (apply Z.log2_le_pow2; lia).
  assert (Hl2 : Z.log2 m < 104) by (apply Z.log2_lt_pow2; lia).
  assert (H10m : 10 * m = 3 * 2 ^ 54 * n - 2 * n) by (subst m; lia).
  unfold normalize. change (0 + -54) with (-54).
  destruct (Z.log2 m + 1 <=? 53) eqn:Ed.
  - unfold int_lt. cbn [mant expo]. change (0 <=? -54) with false.
    change (- -54) with 54. cbv iota.
    destruct (10 * c <? 3 * n) eqn:E.
    + apply Z.ltb_lt in E. apply Z.ltb_lt. lia.
    + apply Z.ltb_ge in E. apply Z.ltb_ge. lia.
  - apply Z.leb_gt in Ed.
    set (s := Z.log2 m + 1 - 53) in *.
    assert (Hs : 1 <= s <= 51) by (subst s; lia).
    unfold int_lt. cbn [mant expo].
    destruct (0 <=? -54 + s) eqn:Ee; [apply Z.leb_le in Ee; lia|].
    replace (- (-54 + s)) with (54 - s) by lia.
    assert (Hsplit : 2 ^ 54 = 2 ^ (54 - s) * 2 ^ s).
    { rewrite <- Z.pow_add_r by lia. f_equal. lia. }
    assert (HP : 0 < 2 ^ s) by (apply Z.pow_pos_nonneg; lia).
    assert (Hh : 2 ^ (s - 1) <= 2 ^ 50) by (apply Z.pow_le_mono_r; lia).
    destruct (10 * c <? 3 * n) eqn:E.
    + apply Z.ltb_lt in E. apply Z.ltb_lt.
      apply round_half_even_gt; [lia|lia|].
      rewrite <- Z.mul_assoc, <- Hsplit.
      assert (2 ^ 50 * 16 = 2 ^ 54) by reflexivity.
      assert (2 ^ 51 = 2 ^ 50 * 2) by reflexivity. lia.
    + apply Z.ltb_ge in E. apply Z.ltb_ge.
      apply round_half_even_le; [lia|lia|].
      rewrite <- Z.mul_assoc, <- Hsplit. lia.
Qed.

(** Past that range the rounded product does part from the exact three
    tenths: the bound of [int_lt_times_0_3] is within a factor two of the
    first such length. *)
Lemma int_lt_times_0_3_inexact :
  exists f,
    int_mul 3897768736407457 c0_3 = Some f
    /\ int_lt 1169330620922237 f = false
    /\ (10 * 1169330620922237 <? 3 * 3897768736407457) = true
    /\ agrees_with_spec 3897768736407457 = true.
Proof. eexists. repeat split; vm_compute; reflexivity. Qed.

End Float64Facts.

(** The integer model of [n * 0.3] agrees with the standard library's
    IEEE 754 specification on the lengths below 4000 and on a sample of
    large ones. *)
Lemma times_0_3_agrees_with_SpecFloat :
  forallb Float64.agrees_with_spec (map Z.of_nat (seq 0 4000)) = true
  /\ forallb Float64.agrees_with_spec
       (map (fun k => 2 ^ 50 + 12345 * Z.of_nat k) (seq 0 200)) = true.
Proof. split; vm_compute; reflexivity. Qed.

(** ** Facts about [strip] *)

Module PyStrFacts.
Import PyStr.

Lemma lstrip_all_space s : all_space s = true -> lstrip s = EmptyString.
Proof.
  induction s as [|c r IH]; cbn; [reflexivity|].
  intros H. apply andb_true_iff in H as [Hc Hr]. rewrite Hc. auto.
Qed.

Lemma rstrip_all_space s : all_space s = true -> rstrip s = EmptyString.
Proof.
  induction s as [|c r IH]; cbn; [reflexivity|].
  intros H. apply andb_true_iff in H as [Hc Hr]. rewrite (IH Hr), Hc. reflexivity.
Qed.

Lemma rstrip_empty s : rstrip s = EmptyString -> all_space s = true.
Proof.
  induction s as [|c r IH]; cbn; [reflexivity|].
  destruct (rstrip r) eqn:E; [|discriminate].
  destruct (isspace c); [|discriminate]. intros _. cbn. auto.
Qed.

Lemma all_space_lstrip s : all_space (lstrip s) = all_space s.
Proof.
  induction s as [|c r IH]; cbn; [reflexivity|].
  destruct (isspace c) eqn:E; cbn; [exact IH|]. rewrite E. reflexivity.
Qed.

(** [not text.strip()] holds exactly for the blank strings. *)
Lemma strip_blank s : nonempty (strip s) = negb (all_space s).
Proof.
  unfold strip. destruct (all_space s) eqn:E.
  - rewrite (lstrip_all_space s E). reflexivity.
  - destruct (rstrip (lstrip s)) eqn:R; [|reflexivity].
    apply rstrip_empty in R. rewrite all_space_lstrip in R. congruence.
Qed.

Lemma all_space_false_nonempty s : all_space s = false -> nonempty s = true.
Proof. destruct s; [discriminate|reflexivity]. Qed.

Lemma nonempty_len s : nonempty s = true -> 1 <= len s.
Proof. destruct s; [discriminate|]. unfold len. cbn [String.length]. lia. Qed.

Lemma len_nonneg s : 0 <= len s.
Proof. unfold len. lia. Qed.

Lemma nonempty_false s : nonempty s = false -> s = EmptyString.
Proof. destruct s; [reflexivity|discriminate]. Qed.

End PyStrFacts.

(** ** The cleanup operation *)

Ltac unfold_monad :=
  unfold bind, ret, raise, lift, call, try_except, print, loaded in *.

(** The guard of [cleanup] fires exactly on a disabled object or a blank text. *)
Lemma cleanup_guard self text :
  negb (tc_enabled self) || negb (PyStr.nonempty text)
    || negb (PyStr.nonempty (PyStr.strip text))
  = negb (tc_enabled self) || PyStr.all_space text.
Proof.
  rewrite PyStrFacts.strip_blank, negb_involutive.
  destruct (tc_enabled self); cbn; [|reflexivity].
  destruct text; reflexivity.
Qed.

(** [cleanup] is [cleanup_traced] without the return site. *)
Lemma cleanup_of_traced env self text prompt_type max_tokens w r w' :
  cleanup_traced env self text prompt_type max_tokens w = (Ok r, w') ->
  cleanup env self text prompt_type max_tokens w = (Ok (snd r), w').
Proof. intros H. unfold cleanup, bind, ret. rewrite H. reflexivity. Qed.

(** C6. A raw text that is empty or consists only of white space is
    returned unchanged, with [wasRefined] false, and the world is left as
    it was: no call reaches the refinement collaborator. *)
Theorem cleanup_blank_text_unchanged
    (env : Env) (self : TextCleanup) (text : string) (prompt_type : json)
    (max_tokens : Z) (w : World) :
  text = EmptyString \/ PyStr.all_space text = true ->
  cleanup_traced env self text prompt_type max_tokens w = (Ok (Skipped, text), w)
  /\ was_refined Skipped = false
  /\ cleanup env self text prompt_type max_tokens w = (Ok text, w).
Proof.
  intros H.
  assert (Hb : PyStr.all_space text = true) by (destruct H as [->|H]; auto).
  assert (Ht : cleanup_traced env self text prompt_type max_tokens w
               = (Ok (Skipped, text), w)).
  { unfold cleanup_traced. rewrite cleanup_guard, Hb, orb_true_r. reflexivity. }
  split; [exact Ht|]. split; [reflexivity|].
  apply (cleanup_of_traced _ _ _ _ _ _ _ _ Ht).
Qed.

Lemma cleanup_blank_text_unchanged_witness :
  cleanup_traced Demo.env Demo.tc "  " (JStr "general") 512 Demo.world0
    = (Ok (Skipped, "  "), Demo.world0)
  /\ was_refined Skipped = false
  /\ cleanup Demo.env Demo.tc "  " (JStr "general") 512 Demo.world0
     = (Ok "  ", Demo.world0).
Proof.
  apply (cleanup_blank_text_unchanged Demo.env Demo.tc "  " (JStr "general") 512
           Demo.world0).
  right. reflexivity.
Defined.

(** The test of [cleanup] on a candidate is the exact 30% comparison. *)
Lemma shorter_than_30_percent_exact cleaned_text text :
  PyStr.nonempty text = true -> PyStr.len text < 2 ^ 51 ->
  shorter_than_30_percent cleaned_text text
  = Ok (10 * PyStr.len cleaned_text <? 3 * PyStr.len text).
Proof.
  intros Hne Hlen. unfold shorter_than_30_percent.
  destruct (Float64Facts.int_lt_times_0_3 (PyStr.len text) (PyStr.len cleaned_text))
    as (f & Hf & Hlt).
  - split; [apply PyStrFacts.nonempty_len; exact Hne|exact Hlen].
  - apply PyStrFacts.len_nonneg.
  - rewrite Hf, Hlt. reflexivity.
Qed.

(** C1 (amended). With refinement enabled and loaded, a raw text that is
    not blank (so not empty either) and shorter than 2^51 characters, a
    prompt that resolves, and a collaborator that answers both calls, the
    cleanup operation invokes the collaborator once and applies the
    acceptance heuristic to the stripped candidate: an empty candidate, or
    one whose length is strictly below 30% of the raw text's length, gives
    the raw text back with [wasRefined] false; any other candidate is
    returned, with [wasRefined] true. *)
Theorem cleanup_acceptance_heuristic
    (env : Env) (self : TextCleanup) (text : string) (prompt_type : json)
    (max_tokens : Z) (w : World)
    (system_prompt : json) (tokenizer : handle) (prompt response : string) :
  tc_enabled self = true ->
  PyStr.all_space text = false ->
  PyStr.len text < 2 ^ 51 ->
  resolve_prompt (tc_prompts self) prompt_type = Ok system_prompt ->
  tc_tokenizer self = Some tokenizer ->
  apply_chat_template env (calls w) tokenizer
    (cleanup_messages system_prompt text) = Ok prompt ->
  mlx_generate env
    (calls w ++ [CallApplyChatTemplate (cleanup_messages system_prompt text)])
    (tc_model self) tokenizer prompt max_tokens = Ok response ->
  let candidate := candidate_of prompt response in
  let rejected :=
    negb (PyStr.nonempty candidate)
    || (10 * PyStr.len candidate <? 3 * PyStr.len text) in
  let w' :=
    {| calls := calls w
                ++ [CallApplyChatTemplate (cleanup_messages system_prompt text);
                    CallGenerate prompt max_tokens];
       stdout := stdout w |} in
  cleanup_traced env self text prompt_type max_tokens w
    = (Ok (if rejected then (Rejected, text) else (Accepted, candidate)), w')
  /\ cleanup env self text prompt_type max_tokens w
     = (Ok (if rejected then text else candidate), w')
  /\ was_refined (if rejected then Rejected else Accepted) = negb rejected.
Proof.
  intros Hen Hblank Hlen Hres Htok Htpl Hgen candidate rejected w'.
  assert (Hne : PyStr.nonempty text = true)
    by (apply PyStrFacts.all_space_false_nonempty; exact Hblank).
  assert (Ht : cleanup_traced env self text prompt_type max_tokens w
               = (Ok (if rejected then (Rejected, text) else (Accepted, candidate)), w')).
  { unfold cleanup_traced. rewrite cleanup_guard, Hen, Hblank. cbn [negb orb].
    unfold_monad. rewrite Hres, Htok. unfold ret. cbv beta iota.
    change [ {| role := "system"; content := system_prompt |};
             {| role := "user";
                content := JStr ("Clean up this text:" +:+ PyStr.nl +:+ PyStr.nl +:+ text) |} ]
      with (cleanup_messages system_prompt text).
    rewrite Htpl. cbn [calls stdout]. rewrite Hgen. cbn [calls stdout].
    fold (candidate_of prompt response). fold candidate.
    subst rejected w'. rewrite <- app_assoc. cbn [app].
    destruct (PyStr.nonempty candidate) eqn:Ec; cbn [negb orb]; [|reflexivity].
    rewrite (shorter_than_30_percent_exact candidate text Hne Hlen).
    destruct (10 * PyStr.len candidate <? 3 * PyStr.len text); reflexivity. }
  split; [exact Ht|]. split.
  - rewrite (cleanup_of_traced _ _ _ _ _ _ _ _ Ht). destruct rejected; reflexivity.
  - destruct rejected; reflexivity.
Qed.

Lemma cleanup_acceptance_heuristic_witness :
  cleanup_traced Demo.env Demo.tc "helo wrld this is test" (JStr "coding") 512
    Demo.world0
  = (Ok (Accepted, "Hello world, this is a test."),
     {| calls := [CallApplyChatTemplate
                    (cleanup_messages (JStr coding_prompt) "helo wrld this is test");
                  CallGenerate "<chat>" 512];
        stdout := [] |}).
Proof.
  exact (proj1 (cleanup_acceptance_heuristic
                  Demo.env Demo.tc "helo wrld this is test" (JStr "coding") 512
                  Demo.world0 (JStr coding_prompt) 2%N "<chat>"
                  ("<chat>" +:+ " Hello world, this is a test. ")
                  eq_refl eq_refl eq_refl eq_refl eq_refl eq_refl eq_refl)).
Defined.

(** C1 as stated, for every non-empty raw text, fails on a blank one: the
    text [" "] is returned although the collaborator would answer with an
    acceptable candidate. *)
Lemma cleanup_acceptance_fails_on_blank_text :
  ~ (forall (env : Env) (self : TextCleanup) (text : string) (prompt_type : json)
            (max_tokens : Z) (w : World)
            (system_prompt : json) (tokenizer : handle) (prompt response : string),
        tc_enabled self = true ->
        PyStr.nonempty text = true ->
        resolve_prompt (tc_prompts self) prompt_type = Ok system_prompt ->
        tc_tokenizer self = Some tokenizer ->
        apply_chat_template env (calls w) tokenizer
          (cleanup_messages system_prompt text) = Ok prompt ->
        mlx_generate env
          (calls w ++ [CallApplyChatTemplate (cleanup_messages system_prompt text)])
          (tc_model self) tokenizer prompt max_tokens = Ok response ->
        let candidate := candidate_of prompt response in
        let rejected :=
          negb (PyStr.nonempty candidate)
          || (10 * PyStr.len candidate <? 3 * PyStr.len text) in
        fst (cleanup_traced env self text prompt_type max_tokens w)
        = Ok (if rejected then (Rejected, text) else (Accepted, candidate))).
Proof.
  intros H.
  specialize (H Demo.env Demo.tc " " (JStr "general") 512 Demo.world0
                (JStr general_prompt) 2%N "<chat>"
                ("<chat>" +:+ " Hello world, this is a test. ")
                eq_refl eq_refl eq_refl eq_refl eq_refl eq_refl).
  vm_compute in H. discriminate H.
Qed.

(** ** Faults of the refinement collaborator *)

(** Case analysis on the innermost scrutinee of the goal. *)
Ltac case_step :=
  match goal with
  | |- context [match ?x with _ => _ end] =>
      lazymatch x with
      | context [match _ with _ => _ end] => fail
      | _ => destruct x eqn:?
      end
  end.

Ltac case_matches := repeat (case_step; unfold_monad; cbv beta iota).

(** [cleanup] always returns: whatever the collaborator does, a text comes
    back, it is the raw text unless it was refined, nothing is printed and
    the calls made so far are kept. *)
Lemma cleanup_traced_total env self text prompt_type max_tokens w :
  exists site out w',
    cleanup_traced env self text prompt_type max_tokens w = (Ok (site, out), w')
    /\ (was_refined site = false -> out = text)
    /\ stdout w' = stdout w.
Proof.
  unfold cleanup_traced. unfold_monad.
  case_matches; cbn [calls stdout];
    do 3 eexists; (split; [reflexivity|]); split; try reflexivity;
    try discriminate; intros; congruence.
Qed.

Lemma cleanup_total env self text prompt_type max_tokens w :
  exists out w',
    cleanup env self text prompt_type max_tokens w = (Ok out, w')
    /\ stdout w' = stdout w.
Proof.
  destruct (cleanup_traced_total env self text prompt_type max_tokens w)
    as (site & out & w' & H & _ & Hs).
  exists out, w'. split; [|exact Hs].
  apply (cleanup_of_traced _ _ _ _ _ _ _ _ H).
Qed.

(** [transcribe] never raises and prints nothing. *)
Lemma transcribe_total env self audio_path cleanup_prompt_arg w :
  exists response w',
    transcribe env self audio_path cleanup_prompt_arg w = (Ok response, w')
    /\ stdout w' = stdout w.
Proof.
  unfold transcribe. unfold try_except, bind at 1.
  destruct audio_path; try (unfold raise; eauto).
  unfold ret at 1. unfold bind at 1, lift.
  destruct (path_exists env s) as [[|]|e]; cbn [negb]; [|unfold ret; eauto|eauto].
  unfold bind at 1, call.
  destruct (asr_transcribe env (calls w) (model self) s) as [a|]; [|eauto].
  unfold bind at 1.
  set (w1 := {| calls := calls w ++ [CallTranscribe s]; stdout := stdout w |}).
  destruct (text_cleanup self) as [tc|]; [destruct (cleanup_enabled self)|].
  - destruct (cleanup_total env tc (result_text a)
                (prompt_type_of self cleanup_prompt_arg) 512 w1)
      as (out & w' & H & Hs).
    rewrite H. unfold ret. eauto.
  - unfold ret. eauto.
  - unfold ret. eauto.
Qed.

(** A server without a [TextCleanup] object passes the transcription
    through: the raw text, no [original_text]. *)
Lemma transcribe_without_cleanup env self path cleanup_prompt_arg w result :
  text_cleanup self = None ->
  path_exists env path = Ok true ->
  asr_transcribe env (calls w) (model self) path = Ok result ->
  transcribe env self (JStr path) cleanup_prompt_arg w
  = (Ok (RTranscription (result_text result) None
           (map sentence_entry (result_sentences result))),
     {| calls := calls w ++ [CallTranscribe path]; stdout := stdout w |}).
Proof.
  intros Hnone Hex Hasr. unfold transcribe. unfold_monad.
  rewrite Hex. cbn [negb]. rewrite Hasr, Hnone, String.eqb_refl. reflexivity.
Qed.

(** C2 (amended). A fault of the refinement collaborator while a text is
    cleaned (chat template or generation) is caught inside [cleanup], which
    returns the raw text with [wasRefined] false; [cleanup] and
    [transcribe] never raise.  A fault while the refinement model is
    loaded is raised again by the constructor of [TextCleanup] and caught
    by the constructor of [TranscriptionServer], which then holds no
    [TextCleanup] object, so that every transcription returns the raw text
    without [original_text]. *)
Theorem refinement_faults_fall_back (env : Env) :
  (forall self text prompt_type max_tokens w,
      exists site out w',
        cleanup_traced env self text prompt_type max_tokens w = (Ok (site, out), w')
        /\ (was_refined site = false -> out = text))
  /\ (forall self text prompt_type max_tokens w system_prompt tokenizer e,
        tc_enabled self = true ->
        PyStr.all_space text = false ->
        resolve_prompt (tc_prompts self) prompt_type = Ok system_prompt ->
        tc_tokenizer self = Some tokenizer ->
        apply_chat_template env (calls w) tokenizer
          (cleanup_messages system_prompt text) = Raise e ->
        cleanup_traced env self text prompt_type max_tokens w
        = (Ok (Failed, text),
           {| calls := calls w
                       ++ [CallApplyChatTemplate (cleanup_messages system_prompt text)];
              stdout := stdout w |}))
  /\ (forall self text prompt_type max_tokens w system_prompt tokenizer prompt e,
        tc_enabled self = true ->
        PyStr.all_space text = false ->
        resolve_prompt (tc_prompts self) prompt_type = Ok system_prompt ->
        tc_tokenizer self = Some tokenizer ->
        apply_chat_template env (calls w) tokenizer
          (cleanup_messages system_prompt text) = Ok prompt ->
        mlx_generate env
          (calls w ++ [CallApplyChatTemplate (cleanup_messages system_prompt text)])
          (tc_model self) tokenizer prompt max_tokens = Raise e ->
        cleanup_traced env self text prompt_type max_tokens w
        = (Ok (Failed, text),
           {| calls := calls w
                       ++ [CallApplyChatTemplate (cleanup_messages system_prompt text);
                           CallGenerate prompt max_tokens];
              stdout := stdout w |}))
  /\ (forall name cleanup_model prompt_name w m e,
        text_cleanup_importable env = true ->
        mlx_lm_installed env = true ->
        from_pretrained env (calls w) name = Ok m ->
        mlx_load env (calls w ++ [CallFromPretrained name]) cleanup_model = Raise e ->
        let w1 := {| calls := calls w ++ [CallFromPretrained name];
                     stdout := stdout w |} in
        let w2 := {| calls := calls w ++ [CallFromPretrained name; CallLoad cleanup_model];
                     stdout := stdout w |} in
        TextCleanup_init env cleanup_model true (Some (custom_prompts_file env)) w1
        = (Raise e, w2)
        /\ TranscriptionServer_init env name true cleanup_model prompt_name w
           = (Ok {| model := m; model_name := name; cleanup_enabled := true;
                    cleanup_prompt := prompt_name; text_cleanup := None |}, w2))
  /\ (forall self path cleanup_prompt_arg w result,
        text_cleanup self = None ->
        path_exists env path = Ok true ->
        asr_transcribe env (calls w) (model self) path = Ok result ->
        transcribe env self (JStr path) cleanup_prompt_arg w
        = (Ok (RTranscription (result_text result) None
                 (map sentence_entry (result_sentences result))),
           {| calls := calls w ++ [CallTranscribe path]; stdout := stdout w |}))
  /\ (forall self audio_path cleanup_prompt_arg w,
        exists response w',
          transcribe env self audio_path cleanup_prompt_arg w = (Ok response, w')).
Proof.
  repeat split.
  - intros. destruct (cleanup_traced_total env self text prompt_type max_tokens w)
      as (site & out & w' & H & Hraw & _). eauto.
  - intros * Hen Hblank Hres Htok Htpl.
    unfold cleanup_traced. rewrite cleanup_guard, Hen, Hblank. cbn [negb orb].
    unfold_monad. rewrite Hres, Htok. unfold ret. cbv beta iota.
    fold (cleanup_messages system_prompt text). rewrite Htpl. reflexivity.
  - intros * Hen Hblank Hres Htok Htpl Hgen.
    unfold cleanup_traced. rewrite cleanup_guard, Hen, Hblank. cbn [negb orb].
    unfold_monad. rewrite Hres, Htok. unfold ret. cbv beta iota.
    fold (cleanup_messages system_prompt text). rewrite Htpl. cbn [calls stdout].
    rewrite Hgen. cbn [calls stdout]. rewrite <- app_assoc. reflexivity.
  - unfold TextCleanup_init. cbn [tc_enabled andb]. rewrite H0.
    unfold TextCleanup_load_model. unfold_monad. cbn [tc_model_name calls stdout].
    rewrite H2. rewrite <- app_assoc. reflexivity.
  - unfold TranscriptionServer_init, TranscriptionServer_load_model, load_custom_prompts.
    unfold_monad. rewrite H1, H. cbn [andb].
    unfold TextCleanup_init. cbn [tc_enabled andb]. rewrite H0.
    unfold TextCleanup_load_model. unfold_monad. cbn [tc_model_name calls stdout].
    rewrite H2. rewrite <- app_assoc. reflexivity.
  - intros. apply transcribe_without_cleanup; assumption.
  - intros. destruct (transcribe_total env self audio_path cleanup_prompt_arg w)
      as (r & w' & H & _). eauto.
Qed.

Lemma refinement_faults_fall_back_witness :
  cleanup_traced Demo.env_generate_fault Demo.tc "helo wrld" (JStr "general") 512
    Demo.world0
  = (Ok (Failed, "helo wrld"),
     {| calls := [CallApplyChatTemplate
                    (cleanup_messages (JStr general_prompt) "helo wrld");
                  CallGenerate "<chat>" 512];
        stdout := [] |})
  /\ TranscriptionServer_init Demo.env_load_fault "asr" true "llm" "general" Demo.world0
     = (Ok {| model := 7%N; model_name := "asr"; cleanup_enabled := true;
              cleanup_prompt := "general"; text_cleanup := None |},
        {| calls := [CallFromPretrained "asr"; CallLoad "llm"]; stdout := [] |}).
Proof.
  split.
  - exact (proj1 (proj2 (proj2 (refinement_faults_fall_back Demo.env_generate_fault)))
             Demo.tc "helo wrld" (JStr "general") 512 Demo.world0
             (JStr general_prompt) 2%N "<chat>" (Exception "out of memory")
             eq_refl eq_refl eq_refl eq_refl eq_refl eq_refl).
  - exact (proj2 (proj1 (proj2 (proj2 (proj2 (refinement_faults_fall_back
                                                 Demo.env_load_fault))))
                    "asr" "llm" "general" Demo.world0 7%N (Exception "model not found")
                    eq_refl eq_refl eq_refl eq_refl)).
Defined.

(** C2 as stated fails for a load fault: the constructor of the
    Refinement Validator does not absorb it but raises it to its caller,
    the constructor of the Orchestrator. *)
Lemma load_fault_leaves_the_validator :
  TextCleanup_init Demo.env_load_fault "llm" true (Some []) Demo.world0
  = (Raise (Exception "model not found"),
     {| calls := [CallLoad "llm"]; stdout := [] |}).
Proof. reflexivity. Qed.

(** ** The prompt registry *)

(** [d.update(other)] is read key by key: the last binding of the key in
    [other], whole, or else what [d] had. *)
Lemma dict_update_lookup other : forall (d : gmap string json) key,
  dict_update d other !! key
  = match last_binding other key with
    | Some v => Some v
    | None => d !! key
    end.
Proof.
  unfold dict_update.
  induction other as [|[k v] rest IH]; intros d key; cbn [foldl last_binding].
  - reflexivity.
  - rewrite IH. destruct (last_binding rest key); [reflexivity|].
    cbn [fst snd]. destruct (String.eqb_spec k key) as [->|Hne].
    + apply lookup_insert_eq.
    + apply lookup_insert_ne. exact Hne.
Qed.

Lemma initial_prompts_lookup custom_prompts key :
  initial_prompts custom_prompts !! key
  = match last_binding (default [] custom_prompts) key with
    | Some v => Some v
    | None => DEFAULT_PROMPTS !! key
    end.
Proof.
  destruct custom_prompts as [[|kv rest]|]; cbn [initial_prompts default];
    [reflexivity| |reflexivity].
  apply dict_update_lookup.
Qed.

Lemma default_prompts_general :
  DEFAULT_PROMPTS !! "general" = Some (JStr general_prompt).
Proof. reflexivity. Qed.

Lemma TextCleanup_init_prompts env name enabled custom_prompts w self w' :
  TextCleanup_init env name enabled custom_prompts w = (Ok self, w') ->
  tc_prompts self = initial_prompts custom_prompts.
Proof.
  unfold TextCleanup_init. cbn [tc_enabled].
  destruct (enabled && mlx_lm_installed env).
  - unfold TextCleanup_load_model. unfold_monad.
    cbn [tc_model_name tc_enabled tc_prompts].
    destruct (mlx_load env (calls w) name); intros H; inversion H. reflexivity.
  - unfold ret. intros H. inversion H. reflexivity.
Qed.

(** C8. The prompt set of a [TextCleanup] object is the three built-in
    templates overridden key by key: a name bound by the user overrides
    has the (last) override as its whole value, any other name has the
    built-in value if there is one.  ["general"] is always registered, and
    resolving a prompt name yields the template registered under that name
    if there is one and the registry's ["general"] entry otherwise. *)
Theorem prompt_resolution
    (custom_prompts : option (list (string * json))) (name : string) :
  let registry := initial_prompts custom_prompts in
  (DEFAULT_PROMPTS !! "general" = Some (JStr general_prompt)
   /\ DEFAULT_PROMPTS !! "coding" = Some (JStr coding_prompt)
   /\ DEFAULT_PROMPTS !! "punctuation" = Some (JStr punctuation_prompt))
  /\ registry !! name
     = match last_binding (default [] custom_prompts) name with
       | Some override => Some override
       | None => DEFAULT_PROMPTS !! name
       end
  /\ (exists general,
        registry !! "general" = Some general
        /\ resolve_prompt registry (JStr name)
           = Ok (match registry !! name with
                 | Some template => template
                 | None => general
                 end))
  /\ (forall env model enabled w self w',
        TextCleanup_init env model enabled custom_prompts w = (Ok self, w') ->
        tc_prompts self = registry).
Proof.
  intros registry. split; [repeat split|]. split; [|split].
  - apply initial_prompts_lookup.
  - assert (Hg : is_Some (registry !! "general")).
    { subst registry. rewrite initial_prompts_lookup.
      destruct (last_binding _ _); [eauto|]. rewrite default_prompts_general. eauto. }
    destruct Hg as [general Hg]. exists general. split; [exact Hg|].
    unfold resolve_prompt. rewrite Hg.
    destruct (registry !! name); reflexivity.
  - intros. eapply TextCleanup_init_prompts. eassumption.
Qed.

Lemma prompt_resolution_witness :
  exists self w',
    TextCleanup_init Demo.env "llm" true (Some Demo.overrides) Demo.world0
    = (Ok self, w')
    /\ tc_prompts self = initial_prompts (Some Demo.overrides)
    /\ resolve_prompt (tc_prompts self) (JStr "terse") = Ok (JStr "Shorten.")
    /\ resolve_prompt (tc_prompts self) (JStr "coding") = Ok (JStr "Fix code words.")
    /\ resolve_prompt (tc_prompts self) (JStr "poetry") = Ok (JStr general_prompt).
Proof.
  eexists _, _. split; [reflexivity|]. split.
  - exact (proj2 (proj2 (proj2 (prompt_resolution (Some Demo.overrides) "terse")))
             Demo.env "llm" true Demo.world0 _ _ eq_refl).
  - repeat split; vm_compute; reflexivity.
Defined.

(** ** The orchestrator *)

(** The refinement step of [transcribe] is [refine_traced] without the
    return site. *)
Lemma refine_step_of_traced env self original_text cleanup_prompt_arg w :
  (match text_cleanup self with
   | Some tc =>
       if cleanup_enabled self
       then cleanup env tc original_text (prompt_type_of self cleanup_prompt_arg) 512
       else ret original_text
   | None => ret original_text
   end) w
  = (r <- refine_traced env self original_text cleanup_prompt_arg ;; ret (snd r)) w.
Proof.
  unfold refine_traced.
  destruct (text_cleanup self); [destruct (cleanup_enabled self)|]; reflexivity.
Qed.

Lemma refine_traced_total env self original_text cleanup_prompt_arg w :
  exists site out w',
    refine_traced env self original_text cleanup_prompt_arg w = (Ok (site, out), w')
    /\ (was_refined site = false -> out = original_text)
    /\ stdout w' = stdout w.
Proof.
  unfold refine_traced.
  destruct (text_cleanup self); [destruct (cleanup_enabled self)|];
    try (unfold ret; do 3 eexists; repeat split; reflexivity).
  apply cleanup_traced_total.
Qed.

(** What [transcribe] answers once the audio file exists and the ASR
    collaborator has returned. *)
Lemma transcribe_success env self path cleanup_prompt_arg w result :
  path_exists env path = Ok true ->
  asr_transcribe env (calls w) (model self) path = Ok result ->
  exists site text w',
    refine_traced env self (result_text result) cleanup_prompt_arg
      {| calls := calls w ++ [CallTranscribe path]; stdout := stdout w |}
    = (Ok (site, text), w')
    /\ (was_refined site = false -> text = result_text result)
    /\ transcribe env self (JStr path) cleanup_prompt_arg w
       = (Ok (RTranscription text
                (if negb (String.eqb text (result_text result))
                 then Some (result_text result) else None)
                (map sentence_entry (result_sentences result))), w').
Proof.
  intros Hex Hasr.
  destruct (refine_traced_total env self (result_text result) cleanup_prompt_arg
              {| calls := calls w ++ [CallTranscribe path]; stdout := stdout w |})
    as (site & text & w' & Hr & Hraw & _).
  exists site, text, w'. split; [exact Hr|]. split; [exact Hraw|].
  unfold transcribe. unfold try_except, bind at 1. unfold ret at 1.
  unfold bind at 1, lift. rewrite Hex. cbn [negb]. unfold bind at 1, call. rewrite Hasr.
  unfold bind at 1. rewrite refine_step_of_traced. unfold bind at 1.
  rewrite Hr. reflexivity.
Qed.

(** The response printed for a transcribe request with an audio path. *)
Lemma handle_line_transcribe env self line fields w response w' :
  json_loads env (PyStr.strip line) = Ok (JObj fields) ->
  dict_get fields "action" = JStr "transcribe" ->
  truthy (dict_get fields "audio_path") = true ->
  transcribe env self (dict_get fields "audio_path")
    (dict_get fields "cleanup_prompt") w = (Ok response, w') ->
  handle_line env self line w
  = (Ok Continue, {| calls := calls w'; stdout := stdout w' ++ [response] |}).
Proof.
  intros Hload Hact Hpath Ht.
  unfold handle_line. unfold try_except, bind at 1, lift. rewrite Hload.
  unfold py_get. unfold bind at 1, ret at 1. rewrite Hact. cbn [is_str].
  change (String.eqb "transcribe" "transcribe") with true. cbv iota.
  unfold bind at 1, ret at 1. unfold bind at 1, ret at 1.
  rewrite Hpath. cbn [negb]. unfold bind at 1. rewrite Ht.
  unfold_monad. reflexivity.
Qed.

(** C5 (amended). When the existence check of the audio path answers
    that there is no such file, [transcribe] answers
    [{"error": "Audio file not found: <path>"}] and leaves the world as it
    was, so the ASR collaborator is not called; a request line carrying
    such a (non-empty) path gets exactly that response.  When the check
    itself raises (a name too long, a directory that may not be read),
    the answer is [{"error": "Transcription failed: <message>"}], again
    without any call to the ASR collaborator. *)
Theorem missing_audio_file
    (env : Env) (self : TranscriptionServer) (path : string)
    (cleanup_prompt_arg : json) (w : World) :
  (path_exists env path = Ok false ->
   transcribe env self (JStr path) cleanup_prompt_arg w
   = (Ok (RError ("Audio file not found: " +:+ path)), w)
   /\ (forall line fields,
         PyStr.nonempty path = true ->
         json_loads env (PyStr.strip line) = Ok (JObj fields) ->
         dict_get fields "action" = JStr "transcribe" ->
         dict_get fields "audio_path" = JStr path ->
         handle_line env self line w
         = (Ok Continue,
            {| calls := calls w;
               stdout := stdout w ++ [RError ("Audio file not found: " +:+ path)] |})))
  /\ (forall e,
        path_exists env path = Raise e ->
        transcribe env self (JStr path) cleanup_prompt_arg w
        = (Ok (RError ("Transcription failed: " +:+ exn_str e)), w)
        /\ (forall line fields,
              PyStr.nonempty path = true ->
              json_loads env (PyStr.strip line) = Ok (JObj fields) ->
              dict_get fields "action" = JStr "transcribe" ->
              dict_get fields "audio_path" = JStr path ->
              handle_line env self line w
              = (Ok Continue,
                 {| calls := calls w;
                    stdout := stdout w
                              ++ [RError ("Transcription failed: " +:+ exn_str e)] |}))).
Proof.
  split.
  - intros Hex.
    assert (Ht : forall cp, transcribe env self (JStr path) cp w
                            = (Ok (RError ("Audio file not found: " +:+ path)), w)).
    { intros cp. unfold transcribe. unfold_monad. rewrite Hex. reflexivity. }
    split; [apply Ht|].
    intros line fields Hne Hload Hact Hpath.
    rewrite (handle_line_transcribe env self line fields w
               (RError ("Audio file not found: " +:+ path)) w Hload Hact).
    + reflexivity.
    + rewrite Hpath. exact Hne.
    + rewrite Hpath. apply Ht.
  - intros e Hex.
    assert (Ht : forall cp, transcribe env self (JStr path) cp w
                            = (Ok (RError ("Transcription failed: " +:+ exn_str e)), w)).
    { intros cp. unfold transcribe. unfold_monad. rewrite Hex. reflexivity. }
    split; [apply Ht|].
    intros line fields Hne Hload Hact Hpath.
    rewrite (handle_line_transcribe env self line fields w
               (RError ("Transcription failed: " +:+ exn_str e)) w Hload Hact).
    + reflexivity.
    + rewrite Hpath. exact Hne.
    + rewrite Hpath. apply Ht.
Qed.

Lemma missing_audio_file_witness :
  (transcribe Demo.env Demo.server (JStr "/tmp/missing.wav") JNull Demo.world0
   = (Ok (RError "Audio file not found: /tmp/missing.wav"), Demo.world0)
   /\ handle_line Demo.env Demo.server Demo.line_missing Demo.world0
      = (Ok Continue,
         {| calls := [];
            stdout := [RError "Audio file not found: /tmp/missing.wav"] |}))
  /\ transcribe Demo.env_check_fault Demo.server (JStr Demo.long_path) JNull
       Demo.world0
     = (Ok (RError ("Transcription failed: [Errno 36] File name too long: '"
                    +:+ Demo.long_path +:+ "'")),
        Demo.world0).
Proof.
  split.
  - pose proof (proj1 (missing_audio_file Demo.env Demo.server "/tmp/missing.wav"
                         JNull Demo.world0) eq_refl) as [H1 H2].
    split; [exact H1|].
    exact (H2 Demo.line_missing _ eq_refl eq_refl eq_refl eq_refl).
  - exact (proj1 (proj2 (missing_audio_file Demo.env_check_fault Demo.server
                           Demo.long_path JNull Demo.world0)
                    (Exception ("[Errno 36] File name too long: '"
                                +:+ Demo.long_path +:+ "'"))
                    eq_refl)).
Defined.

(** C5 as stated, for every audio path that references no existing file,
    fails when the existence check raises: no file has the 300-character
    name of [Demo.long_path], the operating system refuses the name, and
    the response is a transcription failure, not a file-not-found error. *)
Lemma existence_check_fault_is_transcription_failure :
  path_exists Demo.env_check_fault Demo.long_path
  = Raise (Exception ("[Errno 36] File name too long: '" +:+ Demo.long_path +:+ "'"))
  /\ transcribe Demo.env_check_fault Demo.server (JStr Demo.long_path) JNull
       Demo.world0
     = (Ok (RError ("Transcription failed: [Errno 36] File name too long: '"
                    +:+ Demo.long_path +:+ "'")),
        Demo.world0)
  /\ fst (transcribe Demo.env_check_fault Demo.server (JStr Demo.long_path) JNull
            Demo.world0)
     <> Ok (RError ("Audio file not found: " +:+ Demo.long_path)).
Proof.
  split; [vm_compute; reflexivity|]. split; [vm_compute; reflexivity|].
  vm_compute. discriminate.
Qed.

(** C10. A transcribe request whose [audio_path] is the empty string is
    answered [{"error": "Missing audio_path parameter"}]; the calls made
    so far are unchanged, so neither the file check of [transcribe] nor
    the ASR collaborator is reached. *)
Theorem empty_audio_path
    (env : Env) (self : TranscriptionServer) (line : string)
    (fields : list (string * json)) (w : World) :
  json_loads env (PyStr.strip line) = Ok (JObj fields) ->
  dict_get fields "action" = JStr "transcribe" ->
  dict_get fields "audio_path" = JStr EmptyString ->
  handle_line env self line w
  = (Ok Continue,
     {| calls := calls w;
        stdout := stdout w ++ [RError "Missing audio_path parameter"] |}).
Proof.
  intros Hload Hact Hpath.
  unfold handle_line. unfold try_except, bind at 1, lift. rewrite Hload.
  unfold py_get. unfold bind at 1, ret at 1. rewrite Hact. cbn [is_str].
  change (String.eqb "transcribe" "transcribe") with true. cbv iota.
  unfold bind at 1, ret at 1. unfold bind at 1, ret at 1.
  rewrite Hpath. cbn [truthy PyStr.nonempty negb].
  unfold_monad. reflexivity.
Qed.

Lemma empty_audio_path_witness :
  handle_line Demo.env Demo.server Demo.line_empty_path Demo.world0
  = (Ok Continue,
     {| calls := []; stdout := [RError "Missing audio_path parameter"] |}).
Proof.
  exact (empty_audio_path Demo.env Demo.server Demo.line_empty_path _ Demo.world0
           eq_refl eq_refl eq_refl).
Defined.

(** A success envelope comes from an existing file and an ASR result. *)
Lemma transcribe_success_inv env self audio_path cleanup_prompt_arg w
    text original sentences w' :
  transcribe env self audio_path cleanup_prompt_arg w
  = (Ok (RTranscription text original sentences), w') ->
  exists path result,
    audio_path = JStr path
    /\ path_exists env path = Ok true
    /\ asr_transcribe env (calls w) (model self) path = Ok result.
Proof.
  intros H.
  destruct audio_path as [| | | |path| |];
    try (unfold transcribe in H; unfold_monad; discriminate H).
  destruct (path_exists env path) as [[|]|e0] eqn:Hex.
  - destruct (asr_transcribe env (calls w) (model self) path) as [result|e] eqn:Hasr.
    + eauto.
    + unfold transcribe in H. unfold_monad. rewrite Hex in H. cbn [negb] in H.
      cbv beta iota in H. rewrite Hasr in H. discriminate H.
  - unfold transcribe in H. unfold_monad. rewrite Hex in H. discriminate H.
  - unfold transcribe in H. unfold_monad. rewrite Hex in H. discriminate H.
Qed.

(** C7. In every success response of [transcribe], [original_text] is
    the raw transcription exactly when the final text differs from it, and
    is absent exactly when the two are equal.  The final text is the one
    the refinement step returned: when that step did not refine
    ([wasRefined] false, or no cleanup at all) the text is the raw one and
    [original_text] is absent; when it accepted a candidate that differs
    from the raw text, [text] is the candidate and [original_text] the raw
    transcription. *)
Theorem original_text_iff_changed
    (env : Env) (self : TranscriptionServer) (audio_path cleanup_prompt_arg : json)
    (w w' : World) (text : string) (original : option string)
    (sentences : list SentenceEntry) :
  transcribe env self audio_path cleanup_prompt_arg w
  = (Ok (RTranscription text original sentences), w') ->
  exists path result site,
    audio_path = JStr path
    /\ asr_transcribe env (calls w) (model self) path = Ok result
    /\ refine_traced env self (result_text result) cleanup_prompt_arg
         {| calls := calls w ++ [CallTranscribe path]; stdout := stdout w |}
       = (Ok (site, text), w')
    /\ (original = Some (result_text result) <-> text <> result_text result)
    /\ (original = None <-> text = result_text result)
    /\ (was_refined site = false ->
        text = result_text result /\ original = None)
    /\ (was_refined site = true -> text <> result_text result ->
        original = Some (result_text result)).
Proof.
  intros H.
  destruct (transcribe_success_inv _ _ _ _ _ _ _ _ _ H)
    as (path & result & -> & Hex & Hasr).
  destruct (transcribe_success env self path cleanup_prompt_arg w result Hex Hasr)
    as (site & text0 & w0 & Hr & Hraw & Ht).
  rewrite Ht in H. inversion H; subst text0 original sentences w0. clear H.
  exists path, result, site. split; [reflexivity|]. split; [exact Hasr|].
  split; [exact Hr|].
  destruct (String.eqb_spec text (result_text result)) as [Heq|Hne]; cbn [negb].
  - split; [split; congruence|]. split; [split; congruence|].
    split; [auto|]. intros _ Hne. contradiction.
  - split; [split; congruence|]. split; [split; congruence|].
    split; [|reflexivity]. intros Hsite. exfalso. apply Hne. auto.
Qed.

Lemma original_text_iff_changed_witness :
  exists path result site,
    JStr "/tmp/a.wav" = JStr path
    /\ asr_transcribe Demo.env [] 7%N path = Ok result
    /\ refine_traced Demo.env Demo.server (result_text result) JNull
         {| calls := [CallTranscribe path]; stdout := [] |}
       = (Ok (site, "Hello world, this is a test."),
          snd (transcribe Demo.env Demo.server (JStr "/tmp/a.wav") JNull Demo.world0))
    /\ (Some "hello world this is a test" = Some (result_text result)
        <-> "Hello world, this is a test." <> result_text result)
    /\ (Some "hello world this is a test" = None
        <-> "Hello world, this is a test." = result_text result)
    /\ (was_refined site = false ->
        "Hello world, this is a test." = result_text result
        /\ Some "hello world this is a test" = None)
    /\ (was_refined site = true ->
        "Hello world, this is a test." <> result_text result ->
        Some "hello world this is a test" = Some (result_text result)).
Proof.
  exact (original_text_iff_changed Demo.env Demo.server (JStr "/tmp/a.wav") JNull
           Demo.world0 _ "Hello world, this is a test."
           (Some "hello world this is a test")
           (map sentence_entry (result_sentences Demo.heard)) eq_refl).
Defined.

(** The response dictionaries carry the sentences of the collaborator
    field by field, so the consistency of each and their order are kept. *)
Lemma entries_time_ordered_map (l : list AlignedSentence) :
  entries_time_ordered (map sentence_entry l) = sentences_time_ordered l.
Proof.
  unfold entries_time_ordered, sentences_time_ordered.
  rewrite map_map. cbn [sentence_entry entry_start]. f_equal.
  induction l as [|s l IH]; cbn [map forallb]; [reflexivity|].
  rewrite IH. reflexivity.
Qed.

(** C9 (amended). For a transcribe request whose audio path exists and on
    which the ASR collaborator returns a result, the response is a success
    envelope whose sentences are the collaborator's, in the same order and
    with the same text, start, end and duration; hence they are
    time-ordered with start <= end and duration == end - start whenever
    the collaborator's sentences are. *)
Theorem transcription_sentences
    (env : Env) (self : TranscriptionServer) (path : string)
    (cleanup_prompt_arg : json) (w : World) (result : AlignedResult) :
  path_exists env path = Ok true ->
  asr_transcribe env (calls w) (model self) path = Ok result ->
  exists text original w',
    transcribe env self (JStr path) cleanup_prompt_arg w
    = (Ok (RTranscription text original
             (map sentence_entry (result_sentences result))), w')
    /\ entries_time_ordered (map sentence_entry (result_sentences result))
       = sentences_time_ordered (result_sentences result)
    /\ (sentences_time_ordered (result_sentences result) = true ->
        starts_ordered (map entry_start (map sentence_entry (result_sentences result)))
        = true
        /\ Forall (fun e => SFleb (entry_start e) (entry_end e) = true
                            /\ SFeqb (entry_duration e)
                                 (SFsub 53 1024 (entry_end e) (entry_start e)) = true)
                  (map sentence_entry (result_sentences result))).
Proof.
  intros Hex Hasr.
  destruct (transcribe_success env self path cleanup_prompt_arg w result Hex Hasr)
    as (site & text & w' & _ & _ & Ht).
  eexists _, _, _. split; [exact Ht|]. split; [apply entries_time_ordered_map|].
  intros Hord. rewrite <- entries_time_ordered_map in Hord.
  unfold entries_time_ordered in Hord. apply andb_true_iff in Hord as [Hs Hc].
  split; [exact Hs|].
  apply Forall_forall. intros e He.
  rewrite forallb_forall in Hc. apply list_elem_of_In in He. specialize (Hc e He).
  unfold entry_consistent in Hc. apply andb_true_iff in Hc. exact Hc.
Qed.

Lemma transcription_sentences_witness :
  exists text original w',
    transcribe Demo.env Demo.server (JStr "/tmp/a.wav") JNull Demo.world0
    = (Ok (RTranscription text original
             (map sentence_entry (result_sentences Demo.heard))), w')
    /\ entries_time_ordered (map sentence_entry (result_sentences Demo.heard))
       = sentences_time_ordered (result_sentences Demo.heard)
    /\ (sentences_time_ordered (result_sentences Demo.heard) = true ->
        starts_ordered
          (map entry_start (map sentence_entry (result_sentences Demo.heard)))
        = true
        /\ Forall (fun e => SFleb (entry_start e) (entry_end e) = true
                            /\ SFeqb (entry_duration e)
                                 (SFsub 53 1024 (entry_end e) (entry_start e)) = true)
                  (map sentence_entry (result_sentences Demo.heard))).
Proof.
  exact (transcription_sentences Demo.env Demo.server "/tmp/a.wav" JNull
           Demo.world0 Demo.heard eq_refl eq_refl).
Defined.

(** C9 as stated, for every valid request with an existing audio path,
    fails when the ASR collaborator faults: the file exists, the request
    is well formed, and the response is an error envelope. *)
Lemma asr_fault_gives_error_envelope :
  path_exists Demo.env_asr_fault "/tmp/a.wav" = Ok true
  /\ transcribe Demo.env_asr_fault Demo.server (JStr "/tmp/a.wav") JNull Demo.world0
     = (Ok (RError "Transcription failed: cannot decode audio"),
        {| calls := [CallTranscribe "/tmp/a.wav"]; stdout := [] |})
  /\ handle_line Demo.env_asr_fault Demo.server Demo.line_audio Demo.world0
     = (Ok Continue,
        {| calls := [CallTranscribe "/tmp/a.wav"];
           stdout := [RError "Transcription failed: cannot decode audio"] |}).
Proof. repeat split; vm_compute; reflexivity. Qed.

(** ** The command loop *)



Lemma is_str_quit v :
  is_str v "quit" = true ->
  is_str v "transcribe" = false /\ is_str v "ping" = false.
Proof.
  destruct v; cbn [is_str]; try discriminate.
  intros H. apply String.eqb_eq in H. subst s. split; reflexivity.
Qed.

(** A quit request prints the shutdown message and leaves the loop. *)
Lemma handle_line_quit env self line w :
  quit_request env line = true ->
  handle_line env self line w
  = (Ok Break,
     {| calls := calls w; stdout := stdout w ++ [RMessage "Shutting down"] |}).
Proof.
  unfold quit_request. intros H.
  destruct (json_loads env (PyStr.strip line)) as [[| | | | | |fields]|] eqn:Hload;
    try discriminate H.
  destruct (is_str_quit _ H) as [Ht Hp].
  unfold handle_line. unfold try_except, bind at 1, lift. rewrite Hload.
  unfold py_get. unfold bind at 1, ret at 1. rewrite Ht, Hp, H.
  unfold_monad. reflexivity.
Qed.

(** Any other line prints exactly one response and stays in the loop. *)
Lemma handle_line_continue env self line w :
  quit_request env line = false ->
  exists response w',
    handle_line env self line w = (Ok Continue, w')
    /\ stdout w' = (stdout w ++ [response])%list.
Proof.
  unfold quit_request. intros H.
  unfold handle_line. unfold try_except, bind at 1, lift.
  destruct (json_loads env (PyStr.strip line)) as [command|[msg|msg]] eqn:Hload;
    [|unfold_monad; eauto..].
  destruct command as [| | | | | |fields];
    try solve [unfold py_get; unfold_monad; cbn [type_name]; eauto].
  unfold py_get. unfold bind at 1, ret at 1.
  destruct (is_str (dict_get fields "action") "transcribe") eqn:Ht.
  - unfold bind at 1, ret at 1. unfold bind at 1, ret at 1.
    destruct (truthy (dict_get fields "audio_path")) eqn:Hp; cbn [negb].
    + destruct (transcribe_total env self (dict_get fields "audio_path")
                  (dict_get fields "cleanup_prompt") w) as (r & w' & Hr & Hs).
      unfold bind at 1. rewrite Hr. unfold_monad. cbn [stdout]. rewrite <- Hs. eauto.
    + unfold_monad. eauto.
  - destruct (is_str (dict_get fields "action") "ping"); [unfold_monad; eauto|].
    rewrite H. unfold_monad. eauto.
Qed.

(** Without a quit request the loop reads every line, prints one response
    for each, and ends with the input. *)
Lemma run_without_quit env self lines : forall w,
  Forall (fun l => quit_request env l = false) lines ->
  exists w',
    run env self lines w = (Ok EndOfInput, w')
    /\ length (stdout w') = (length (stdout w) + length lines)%nat.
Proof.
  induction lines as [|line rest IH]; intros w Hall.
  - exists w. split; [reflexivity|]. cbn [length]. lia.
  - apply Forall_cons in Hall as [Hl Hrest].
    destruct (handle_line_continue env self line w Hl) as (r & w1 & H1 & Hs1).
    destruct (IH w1 Hrest) as (w' & Hrun & Hlen).
    exists w'. split.
    + cbn [run]. unfold bind at 1. rewrite H1. exact Hrun.
    + rewrite Hlen, Hs1, length_app. cbn [length]. lia.
Qed.

(** The lines before the first quit request are processed as if they were
    the whole input. *)
Lemma run_app env self before rest : forall w w1,
  run env self before w = (Ok EndOfInput, w1) ->
  run env self (before ++ rest) w = run env self rest w1.
Proof.
  induction before as [|line before IH]; intros w w1 H.
  - cbn in H. unfold ret in H. inversion H. reflexivity.
  - cbn [run app] in *. unfold bind at 1 in H. unfold bind at 1.
    destruct (handle_line env self line w) as [[[|]|e] w2]; try discriminate H.
    apply IH. exact H.
Qed.

(** C3. When the input reaches a quit request, the loop prints exactly
    one response for it, [{"success": true, "message": "Shutting down"}],
    after one response for each earlier line; that response is the last
    one, and whatever follows in the input is not read (the outcome does
    not depend on it and no further call or output is made).  The loop
    always returns, through [break] exactly when some line is a quit
    request and at the end of the input otherwise. *)
Theorem quit_ends_the_loop
    (env : Env) (self : TranscriptionServer)
    (before : list string) (line : string) (after : list string) (w : World) :
  Forall (fun l => quit_request env l = false) before ->
  quit_request env line = true ->
  (exists w1,
      run env self before w = (Ok EndOfInput, w1)
      /\ length (stdout w1) = (length (stdout w) + length before)%nat
      /\ run env self (before ++ line :: after) w
         = (Ok QuitReceived,
            {| calls := calls w1;
               stdout := stdout w1 ++ [RMessage "Shutting down"] |}))
  /\ (forall lines w0,
        exists reason w',
          run env self lines w0 = (Ok reason, w')
          /\ (reason = QuitReceived <-> Exists (fun l => quit_request env l = true) lines)
          /\ (reason = EndOfInput <-> Forall (fun l => quit_request env l = false) lines)).
Proof.
  intros Hbefore Hquit. split.
  - destruct (run_without_quit env self before w Hbefore) as (w1 & Hrun & Hlen).
    exists w1. split; [exact Hrun|]. split; [exact Hlen|].
    rewrite (run_app env self before (line :: after) w w1 Hrun).
    cbn [run]. unfold bind at 1. rewrite (handle_line_quit env self line w1 Hquit).
    reflexivity.
  - clear. induction lines as [|l rest IH]; intros w0.
    + exists EndOfInput, w0. split; [reflexivity|]. split.
      * split; [discriminate|]. intros H. inversion H.
      * split; auto.
    + destruct (quit_request env l) eqn:Hq.
      * exists QuitReceived. eexists. split.
        { cbn [run]. unfold bind at 1. rewrite (handle_line_quit env self l w0 Hq).
          reflexivity. }
        split.
        { split; [|reflexivity]. intros _. apply Exists_cons_hd. exact Hq. }
        { split; [discriminate|]. intros H. apply Forall_cons in H as [H _].
          congruence. }
      * destruct (handle_line_continue env self l w0 Hq) as (r & w1 & H1 & _).
        destruct (IH w1) as (reason & w' & Hrun & HQ & HE).
        exists reason, w'. split.
        { cbn [run]. unfold bind at 1. rewrite H1. exact Hrun. }
        split.
        { rewrite HQ. split.
          - intros H. apply Exists_cons_tl. exact H.
          - intros H. apply Exists_cons in H as [H|H]; [congruence|exact H]. }
        { rewrite HE. split.
          - intros H. apply Forall_cons. split; assumption.
          - intros H. apply Forall_cons in H as [_ H]. exact H. }
Qed.

Lemma quit_ends_the_loop_witness :
  (exists w1,
      run Demo.env Demo.server [Demo.line_ping; Demo.line_garbage] Demo.world0
      = (Ok EndOfInput, w1)
      /\ length (stdout w1) = (length (stdout Demo.world0) + 2)%nat
      /\ run Demo.env Demo.server
           ([Demo.line_ping; Demo.line_garbage]
              ++ Demo.line_quit :: [Demo.line_audio; Demo.line_ping])
           Demo.world0
         = (Ok QuitReceived,
            {| calls := calls w1;
               stdout := stdout w1 ++ [RMessage "Shutting down"] |})).
Proof.
  refine (proj1 (quit_ends_the_loop Demo.env Demo.server
                   [Demo.line_ping; Demo.line_garbage] Demo.line_quit
                   [Demo.line_audio; Demo.line_ping] Demo.world0 _ eq_refl)).
  repeat constructor.
Defined.

(** A session: a liveness check, a malformed line, a missing file, an
    empty path, a transcription that is refined, then quit; the line after
    quit is not read. *)
Example session :
  run Demo.env Demo.server
    [Demo.line_ping; Demo.line_garbage; Demo.line_missing; Demo.line_empty_path;
     Demo.line_audio; Demo.line_quit; Demo.line_ping]
    Demo.world0
  = (Ok QuitReceived,
     {| calls :=
          [CallTranscribe "/tmp/a.wav";
           CallApplyChatTemplate
             (cleanup_messages (JStr general_prompt) "hello world this is a test");
           CallGenerate "<chat>" 512];
        stdout :=
          [RMessage "pong";
           RError "Invalid JSON: Expecting value: line 1 column 1 (char 0)";
           RError "Audio file not found: /tmp/missing.wav";
           RError "Missing audio_path parameter";
           RTranscription "Hello world, this is a test."
             (Some "hello world this is a test")
             (map sentence_entry (result_sentences Demo.heard));
           RMessage "Shutting down"] |}).
Proof. vm_compute. reflexivity. Qed.

(** * Further properties of the code *)

(** ** Request dispatch *)

Lemma world_eta w : {| calls := calls w; stdout := stdout w |} = w.
Proof. destruct w. reflexivity. Qed.

(** [d.get(key)] without a binding of [key] is [None]. *)
Lemma dict_get_absent fields key :
  Forall (fun kv : string * json => kv.1 <> key) fields ->
  dict_get fields key = JNull.
Proof.
  induction 1 as [|[k v] rest Hk _ IH]; cbn [dict_get]; [reflexivity|].
  cbn [fst] in Hk. destruct (String.eqb_spec k key); [contradiction|exact IH].
Qed.

(** X1. A ping request is answered [{"success": true, "message": "pong"}]
    whatever the state of the server, without any call to a collaborator;
    sent [n] times in a row it gives [n] such responses and nothing else. *)
Theorem ping_answers_pong
    (env : Env) (self : TranscriptionServer) (line : string)
    (fields : list (string * json)) (n : nat) (w : World) :
  json_loads env (PyStr.strip line) = Ok (JObj fields) ->
  dict_get fields "action" = JStr "ping" ->
  handle_line env self line w
  = (Ok Continue,
     {| calls := calls w; stdout := stdout w ++ [RMessage "pong"] |})
  /\ run env self (replicate n line) w
     = (Ok EndOfInput,
        {| calls := calls w; stdout := stdout w ++ replicate n (RMessage "pong") |}).
Proof.
  intros Hload Hact.
  assert (H1 : forall w0, handle_line env self line w0
                = (Ok Continue,
                   {| calls := calls w0; stdout := stdout w0 ++ [RMessage "pong"] |})).
  { intros w0. unfold handle_line. unfold try_except, bind at 1, lift.
    rewrite Hload. unfold py_get. unfold bind at 1, ret at 1. rewrite Hact.
    cbn [is_str]. change (String.eqb "ping" "transcribe") with false.
    change (String.eqb "ping" "ping") with true. cbv iota.
    unfold_monad. reflexivity. }
  split; [apply H1|].
  revert w. induction n as [|n IH]; intros w.
  - cbn [replicate run]. unfold ret. rewrite app_nil_r, world_eta. reflexivity.
  - cbn [replicate run]. unfold bind at 1. rewrite H1, IH. cbn [calls stdout].
    rewrite <- app_assoc. reflexivity.
Qed.

Lemma ping_answers_pong_witness :
  handle_line Demo.env Demo.server Demo.line_ping Demo.world0
  = (Ok Continue, {| calls := []; stdout := [RMessage "pong"] |})
  /\ run Demo.env Demo.server (replicate 3 Demo.line_ping) Demo.world0
     = (Ok EndOfInput,
        {| calls := []; stdout := replicate 3 (RMessage "pong") |}).
Proof.
  exact (ping_answers_pong Demo.env Demo.server Demo.line_ping _ 3 Demo.world0
           eq_refl eq_refl).
Defined.

(** X2. A request whose action is none of ["transcribe"], ["ping"] and
    ["quit"] is answered [{"error": "Unknown action: <action>"}], calls no
    collaborator and keeps the loop going; a request without an action
    reads [Unknown action: None]. *)
Theorem unknown_action_reported
    (env : Env) (self : TranscriptionServer) (line : string)
    (fields : list (string * json)) (w : World) :
  json_loads env (PyStr.strip line) = Ok (JObj fields) ->
  is_str (dict_get fields "action") "transcribe" = false ->
  is_str (dict_get fields "action") "ping" = false ->
  is_str (dict_get fields "action") "quit" = false ->
  handle_line env self line w
  = (Ok Continue,
     {| calls := calls w;
        stdout := stdout w
                  ++ [RError ("Unknown action: "
                              +:+ format_value (py_repr env) (dict_get fields "action"))] |})
  /\ (forall s, dict_get fields "action" = JStr s ->
        format_value (py_repr env) (dict_get fields "action") = s)
  /\ (Forall (fun kv : string * json => kv.1 <> "action") fields ->
        format_value (py_repr env) (dict_get fields "action") = "None").
Proof.
  intros Hload Ht Hp Hq. split; [|split].
  - unfold handle_line. unfold try_except, bind at 1, lift. rewrite Hload.
    unfold py_get. unfold bind at 1, ret at 1. rewrite Ht, Hp, Hq.
    unfold_monad. reflexivity.
  - intros s ->. reflexivity.
  - intros Habs. rewrite (dict_get_absent _ _ Habs). reflexivity.
Qed.

Lemma unknown_action_reported_witness :
  handle_line Sample.env Demo.server Sample.line_bogus Demo.world0
  = (Ok Continue, {| calls := []; stdout := [RError "Unknown action: bogus"] |})
  /\ handle_line Sample.env Demo.server Sample.line_no_action Demo.world0
     = (Ok Continue, {| calls := []; stdout := [RError "Unknown action: None"] |}).
Proof.
  split.
  - exact (proj1 (unknown_action_reported Sample.env Demo.server Sample.line_bogus
                    _ Demo.world0 eq_refl eq_refl eq_refl eq_refl)).
  - exact (proj1 (unknown_action_reported Sample.env Demo.server Sample.line_no_action
                    _ Demo.world0 eq_refl eq_refl eq_refl eq_refl)).
Defined.

(** X3. A line that is valid JSON but not an object (a list, a number, a
    string, [null]) is answered [{"error": "Server error: '<type>' object
    has no attribute 'get'"}] by the outer handler of the loop, which goes
    on; no collaborator is called. *)
Theorem non_object_request
    (env : Env) (self : TranscriptionServer) (line : string) (command : json)
    (w : World) :
  json_loads env (PyStr.strip line) = Ok command ->
  (forall fields, command <> JObj fields) ->
  handle_line env self line w
  = (Ok Continue,
     {| calls := calls w;
        stdout := stdout w
                  ++ [RError ("Server error: '" +:+ type_name command
                              +:+ "' object has no attribute 'get'")] |}).
Proof.
  intros Hload Hno.
  unfold handle_line. unfold try_except, bind at 1, lift. rewrite Hload.
  destruct command; try (unfold py_get; unfold_monad; reflexivity).
  exfalso. eapply Hno. reflexivity.
Qed.

Lemma non_object_request_witness :
  handle_line Sample.env Demo.server Sample.line_array Demo.world0
  = (Ok Continue,
     {| calls := [];
        stdout := [RError "Server error: 'list' object has no attribute 'get'"] |}).
Proof.
  refine (non_object_request Sample.env Demo.server Sample.line_array
            (JArr [JInt 1; JInt 2]) Demo.world0 eq_refl _).
  intros fields H. discriminate H.
Defined.

(** X4. A transcribe request whose audio path is absent or is a false
    value ([null], the empty string, zero, [false], an empty list or
    object) is answered [{"error": "Missing audio_path parameter"}];
    [transcribe] is not entered and no collaborator is called. *)
Theorem missing_audio_path
    (env : Env) (self : TranscriptionServer) (line : string)
    (fields : list (string * json)) (w : World) :
  json_loads env (PyStr.strip line) = Ok (JObj fields) ->
  dict_get fields "action" = JStr "transcribe" ->
  Forall (fun kv : string * json => kv.1 <> "audio_path") fields
  \/ truthy (dict_get fields "audio_path") = false ->
  handle_line env self line w
  = (Ok Continue,
     {| calls := calls w;
        stdout := stdout w ++ [RError "Missing audio_path parameter"] |}).
Proof.
  intros Hload Hact Hpath.
  assert (Hf : truthy (dict_get fields "audio_path") = false).
  { destruct Hpath as [Habs|Hf]; [|exact Hf].
    rewrite (dict_get_absent _ _ Habs). reflexivity. }
  unfold handle_line. unfold try_except, bind at 1, lift. rewrite Hload.
  unfold py_get. unfold bind at 1, ret at 1. rewrite Hact. cbn [is_str].
  change (String.eqb "transcribe" "transcribe") with true. cbv iota.
  unfold bind at 1, ret at 1. unfold bind at 1, ret at 1.
  rewrite Hf. cbn [negb]. unfold_monad. reflexivity.
Qed.

Lemma missing_audio_path_witness :
  handle_line Sample.env Demo.server Sample.line_no_path Demo.world0
  = (Ok Continue,
     {| calls := []; stdout := [RError "Missing audio_path parameter"] |}).
Proof.
  refine (missing_audio_path Sample.env Demo.server Sample.line_no_path _
            Demo.world0 eq_refl eq_refl _).
  left. repeat constructor. discriminate.
Defined.

(** ** One response per line, in order *)

Ltac prefix_calls :=
  cbn [calls stdout];
  solve [ reflexivity
        | apply prefix_app_r; reflexivity
        | do 2 apply prefix_app_r; reflexivity ].

Lemma cleanup_traced_appends env self text prompt_type max_tokens w :
  exists site out w',
    cleanup_traced env self text prompt_type max_tokens w = (Ok (site, out), w')
    /\ stdout w' = stdout w
    /\ calls w `prefix_of` calls w'.
Proof.
  unfold cleanup_traced. unfold_monad.
  case_matches; do 3 eexists; (split; [reflexivity|]);
    (split; [reflexivity|prefix_calls]).
Qed.

Lemma transcribe_appends env self audio_path cleanup_prompt_arg w :
  exists response w',
    transcribe env self audio_path cleanup_prompt_arg w = (Ok response, w')
    /\ stdout w' = stdout w
    /\ calls w `prefix_of` calls w'.
Proof.
  unfold transcribe. unfold try_except, bind at 1.
  destruct audio_path; try (unfold raise, ret; do 2 eexists; repeat split; reflexivity).
  unfold ret at 1. unfold bind at 1, lift.
  destruct (path_exists env s) as [[|]|e]; cbn [negb];
    [|unfold ret; do 2 eexists; repeat split; reflexivity..].
  unfold bind at 1, call.
  destruct (asr_transcribe env (calls w) (model self) s) as [a|];
    [|unfold ret; do 2 eexists; split; [reflexivity|]; split; [reflexivity|prefix_calls]].
  unfold bind at 1. rewrite refine_step_of_traced. unfold bind at 1.
  set (w1 := {| calls := calls w ++ [CallTranscribe s]; stdout := stdout w |}).
  assert (H : exists site out w',
             refine_traced env self (result_text a) cleanup_prompt_arg w1
             = (Ok (site, out), w')
             /\ stdout w' = stdout w1 /\ calls w1 `prefix_of` calls w').
  { unfold refine_traced.
    destruct (text_cleanup self); [destruct (cleanup_enabled self)|];
      try (unfold ret; do 3 eexists; repeat split; reflexivity).
    apply cleanup_traced_appends. }
  destruct H as (site & out & w' & Hr & Hs & Hc). rewrite Hr. unfold ret.
  do 2 eexists. split; [reflexivity|]. split; [exact Hs|].
  etransitivity; [|exact Hc]. subst w1. prefix_calls.
Qed.

Lemma handle_line_appends env self line w :
  exists c response w',
    handle_line env self line w = (Ok c, w')
    /\ stdout w' = (stdout w ++ [response])%list
    /\ calls w `prefix_of` calls w'
    /\ (c = Break <-> quit_request env line = true).
Proof.
  destruct (quit_request env line) eqn:Hq.
  - rewrite (handle_line_quit env self line w Hq). do 3 eexists.
    split; [reflexivity|]. split; [reflexivity|]. split; [prefix_calls|].
    split; reflexivity.
  - unfold quit_request in Hq.
    unfold handle_line. unfold try_except, bind at 1, lift.
    destruct (json_loads env (PyStr.strip line)) as [command|[msg|msg]] eqn:Hload;
      [|unfold_monad; do 3 eexists; split; [reflexivity|]; split; [reflexivity|];
        split; [prefix_calls|]; split; [discriminate|discriminate]..].
    destruct command as [| | | | | |fields];
      try solve [unfold py_get; unfold_monad; cbn [type_name]; do 3 eexists;
                 split; [reflexivity|]; split; [reflexivity|];
                 split; [prefix_calls|]; split; discriminate].
    unfold py_get. unfold bind at 1, ret at 1.
    destruct (is_str (dict_get fields "action") "transcribe") eqn:Ht.
    + unfold bind at 1, ret at 1. unfold bind at 1, ret at 1.
      destruct (truthy (dict_get fields "audio_path")) eqn:Hp; cbn [negb].
      * destruct (transcribe_appends env self (dict_get fields "audio_path")
                    (dict_get fields "cleanup_prompt") w) as (r & w' & Hr & Hs & Hc).
        unfold bind at 1. rewrite Hr. unfold_monad. cbn [stdout calls].
        do 3 eexists. split; [reflexivity|]. cbn [stdout calls]. rewrite Hs.
        split; [reflexivity|]. split; [exact Hc|]. split; discriminate.
      * unfold_monad. do 3 eexists. split; [reflexivity|]. split; [reflexivity|].
        split; [prefix_calls|]. split; discriminate.
    + destruct (is_str (dict_get fields "action") "ping");
        [|rewrite Hq]; unfold_monad; do 3 eexists; (split; [reflexivity|]);
        (split; [reflexivity|]); (split; [prefix_calls|]); split; discriminate.
Qed.

(** The loop never raises and prints one response per line read. *)
Lemma run_counts env self lines : forall w,
  exists reason w',
    run env self lines w = (Ok reason, w')
    /\ length (stdout w') = (length (stdout w) + lines_read env lines)%nat.
Proof.
  induction lines as [|line rest IH]; intros w.
  - exists EndOfInput, w. split; [reflexivity|]. cbn [lines_read]. lia.
  - destruct (handle_line_appends env self line w) as (c & r & w1 & H1 & Hs & _ & Hq).
    cbn [run lines_read]. unfold bind at 1. rewrite H1. destruct c.
    + destruct (quit_request env line) eqn:E.
      { destruct Hq as [_ Hq]. discriminate (Hq eq_refl). }
      destruct (IH w1) as (reason & w' & Hrun & Hlen).
      exists reason, w'. split; [exact Hrun|].
      rewrite Hlen, Hs, length_app. cbn [length]. lia.
    + destruct Hq as [Hq _]. rewrite (Hq eq_refl). unfold ret.
      exists QuitReceived, w1. split; [reflexivity|].
      rewrite Hs, length_app. cbn [length]. lia.
Qed.

(** X5. Whatever a line holds, the body of the loop returns without an
    exception after printing exactly one response behind the earlier
    ones; the calls already made are kept, and the loop is left exactly
    when the line is a quit request.  So the loop itself never raises and
    prints exactly one response for each line it reads: every line up to
    and including the first quit request. *)
Theorem one_response_per_line
    (env : Env) (self : TranscriptionServer) (lines : list string) (w : World) :
  (forall line w0,
      exists c response w',
        handle_line env self line w0 = (Ok c, w')
        /\ stdout w' = (stdout w0 ++ [response])%list
        /\ calls w0 `prefix_of` calls w'
        /\ (c = Break <-> quit_request env line = true))
  /\ exists reason w',
       run env self lines w = (Ok reason, w')
       /\ length (stdout w') = (length (stdout w) + lines_read env lines)%nat.
Proof.
  split.
  - intros line w0. apply handle_line_appends.
  - apply run_counts.
Qed.

Lemma run_appends env self lines : forall w,
  exists reason w',
    run env self lines w = (Ok reason, w')
    /\ stdout w `prefix_of` stdout w'
    /\ calls w `prefix_of` calls w'
    /\ (length (stdout w') <= length (stdout w) + length lines)%nat.
Proof.
  induction lines as [|line rest IH]; intros w.
  - exists EndOfInput, w. repeat split; try reflexivity. lia.
  - destruct (handle_line_appends env self line w) as (c & r & w1 & H1 & Hs & Hc & _).
    cbn [run]. unfold bind at 1. rewrite H1. destruct c.
    + destruct (IH w1) as (reason & w' & Hrun & Hs' & Hc' & Hlen).
      exists reason, w'. split; [exact Hrun|]. split.
      * etransitivity; [|exact Hs']. rewrite Hs. apply prefix_app_r. reflexivity.
      * split; [etransitivity; eassumption|].
        rewrite Hs, length_app in Hlen. cbn [length] in *. lia.
    + unfold ret. exists QuitReceived, w1. split; [reflexivity|]. split.
      * rewrite Hs. apply prefix_app_r. reflexivity.
      * split; [exact Hc|]. rewrite Hs, length_app. cbn [length]. lia.
Qed.

Lemma run_app_cases env self before rest : forall w,
  run env self (before ++ rest) w
  = match run env self before w with
    | (Ok EndOfInput, w1) => run env self rest w1
    | other => other
    end.
Proof.
  induction before as [|line before IH]; intros w.
  - reflexivity.
  - cbn [run app]. unfold bind at 1 2.
    destruct (handle_line env self line w) as [[[|]|e] w1]; [apply IH|reflexivity..].
Qed.

(** X6. The responses to the lines read so far do not depend on what
    follows: running the loop on a longer input only adds responses and
    calls behind those of the shorter one, at most one response per line,
    and once the shorter input has ended in a quit the longer one changes
    nothing. *)
Theorem responses_do_not_depend_on_later_input
    (env : Env) (self : TranscriptionServer) (before after : list string)
    (w : World) :
  exists reason1 w1 reason2 w2,
    run env self before w = (Ok reason1, w1)
    /\ run env self (before ++ after) w = (Ok reason2, w2)
    /\ stdout w1 `prefix_of` stdout w2
    /\ calls w1 `prefix_of` calls w2
    /\ (length (stdout w2) <= length (stdout w1) + length after)%nat
    /\ (reason1 = QuitReceived -> reason2 = QuitReceived /\ w2 = w1).
Proof.
  destruct (run_appends env self before w) as (reason1 & w1 & H1 & _).
  rewrite run_app_cases, H1. destruct reason1.
  - exists QuitReceived, w1, QuitReceived, w1.
    repeat split; try reflexivity. lia.
  - destruct (run_appends env self after w1) as (reason2 & w2 & H2 & Hs & Hc & Hl).
    exists EndOfInput, w1, reason2, w2. repeat split; try assumption; discriminate.
Qed.

(** ** White space around a request *)

Module PyStrMore.
Import PyStr.

Lemma append_nil b : EmptyString +:+ b = b.
Proof. reflexivity. Qed.

Lemma append_cons c r b : String c r +:+ b = String c (r +:+ b).
Proof. reflexivity. Qed.

Lemma all_space_app a b :
  all_space (a +:+ b) = all_space a && all_space b.
Proof.
  induction a as [|c r IH]; [reflexivity|].
  rewrite append_cons. cbn [all_space]. rewrite IH. apply andb_assoc.
Qed.

Lemma lstrip_app_space a s : all_space a = true -> lstrip (a +:+ s) = lstrip s.
Proof.
  induction a as [|c r IH]; [reflexivity|].
  rewrite append_cons. cbn [all_space lstrip].
  intros H. apply andb_true_iff in H as [Hc Hr]. rewrite Hc. auto.
Qed.

Lemma rstrip_app_space s b : all_space b = true -> rstrip (s +:+ b) = rstrip s.
Proof.
  intros Hb. induction s as [|c r IH].
  - rewrite append_nil. apply PyStrFacts.rstrip_all_space. exact Hb.
  - rewrite append_cons. cbn [rstrip]. rewrite IH. reflexivity.
Qed.

Lemma lstrip_app_nonblank s b :
  all_space s = false -> lstrip (s +:+ b) = lstrip s +:+ b.
Proof.
  induction s as [|c r IH]; [discriminate|].
  rewrite append_cons. cbn [all_space lstrip].
  destruct (isspace c); cbn [andb]; [exact IH|intros _; apply append_cons].
Qed.

(** Padding with white space on either side is invisible to [strip]. *)
Lemma strip_padded a s b :
  all_space a = true -> all_space b = true ->
  strip (a +:+ s +:+ b) = strip s.
Proof.
  intros Ha Hb. unfold strip. rewrite (lstrip_app_space a _ Ha).
  destruct (all_space s) eqn:Hs.
  - rewrite (PyStrFacts.lstrip_all_space s Hs).
    rewrite PyStrFacts.lstrip_all_space; [reflexivity|].
    rewrite all_space_app, Hs, Hb. reflexivity.
  - rewrite (lstrip_app_nonblank s b Hs). apply rstrip_app_space. exact Hb.
Qed.

Lemma rstrip_idempotent s : rstrip (rstrip s) = rstrip s.
Proof.
  induction s as [|c r IH]; cbn [rstrip]; [reflexivity|].
  destruct (rstrip r) as [|c' r'] eqn:E.
  - destruct (isspace c) eqn:Ec; cbn [rstrip]; [reflexivity|]. rewrite Ec. reflexivity.
  - change (rstrip (String c (String c' r')))
      with (match rstrip (String c' r') with
            | EmptyString => if isspace c then EmptyString else String c EmptyString
            | String a b => String c (String a b)
            end).
    rewrite IH. reflexivity.
Qed.

Lemma lstrip_head s :
  lstrip s = EmptyString
  \/ exists c r, lstrip s = String c r /\ isspace c = false.
Proof.
  induction s as [|c r IH]; cbn [lstrip]; [left; reflexivity|].
  destruct (isspace c) eqn:E; [exact IH|]. right. eauto.
Qed.

Lemma rstrip_head c r :
  isspace c = false -> exists r', rstrip (String c r) = String c r'.
Proof.
  intros Hc. cbn [rstrip]. destruct (rstrip r); [rewrite Hc|]; eauto.
Qed.

(** A stripped string has no white space at either end: stripping it
    again changes nothing on the left nor on the right. *)
Lemma strip_stripped s :
  lstrip (strip s) = strip s /\ rstrip (strip s) = strip s.
Proof.
  unfold strip. split; [|apply rstrip_idempotent].
  destruct (lstrip_head s) as [->|(c & r & -> & Hc)]; [reflexivity|].
  destruct (rstrip_head c r Hc) as [r' ->]. cbn [lstrip]. rewrite Hc. reflexivity.
Qed.

Lemma strip_idempotent s : strip (strip s) = strip s.
Proof.
  destruct (strip_stripped s) as [Hl Hr].
  unfold strip at 1. rewrite Hl. exact Hr.
Qed.

Lemma slice_from_short n s :
  (String.length s <= n)%nat -> slice_from n s = EmptyString.
Proof.
  revert s. induction n as [|n IH]; intros [|c r];
    cbn [slice_from String.length]; try reflexivity; try lia.
  intros H. apply IH. lia.
Qed.

End PyStrMore.

(** X7. White space around a request line does not matter: a line padded
    on both sides with spaces, tabs or line ends is handled exactly as the
    bare line, and so is the stripped line. *)
Theorem padding_is_ignored
    (env : Env) (self : TranscriptionServer) (before line after : string)
    (w : World) :
  PyStr.all_space before = true ->
  PyStr.all_space after = true ->
  handle_line env self (before +:+ line +:+ after) w = handle_line env self line w
  /\ handle_line env self (PyStr.strip line) w = handle_line env self line w.
Proof.
  intros Hb Ha. unfold handle_line.
  rewrite (PyStrMore.strip_padded before line after Hb Ha).
  rewrite PyStrMore.strip_idempotent. split; reflexivity.
Qed.

Lemma padding_is_ignored_witness :
  handle_line Sample.env Demo.server Sample.line_padded_ping Demo.world0
  = handle_line Sample.env Demo.server Demo.line_ping Demo.world0
  /\ handle_line Sample.env Demo.server (PyStr.strip Demo.line_ping) Demo.world0
     = handle_line Sample.env Demo.server Demo.line_ping Demo.world0.
Proof.
  exact (padding_is_ignored Sample.env Demo.server "   " Demo.line_ping " "
           Demo.world0 eq_refl eq_refl).
Defined.

(** ** More on the cleanup operation *)

(** [cleanup] once the collaborator has answered both calls. *)
Lemma cleanup_traced_answered env self text prompt_type max_tokens w
    system_prompt tokenizer prompt response :
  tc_enabled self = true ->
  PyStr.all_space text = false ->
  resolve_prompt (tc_prompts self) prompt_type = Ok system_prompt ->
  tc_tokenizer self = Some tokenizer ->
  apply_chat_template env (calls w) tokenizer
    (cleanup_messages system_prompt text) = Ok prompt ->
  mlx_generate env
    (calls w ++ [CallApplyChatTemplate (cleanup_messages system_prompt text)])
    (tc_model self) tokenizer prompt max_tokens = Ok response ->
  let candidate := candidate_of prompt response in
  let w' :=
    {| calls := calls w
                ++ [CallApplyChatTemplate (cleanup_messages system_prompt text);
                    CallGenerate prompt max_tokens];
       stdout := stdout w |} in
  cleanup_traced env self text prompt_type max_tokens w
  = (Ok (if negb (PyStr.nonempty candidate) then (Rejected, text)
         else match shorter_than_30_percent candidate text with
              | Ok true => (Rejected, text)
              | Ok false => (Accepted, candidate)
              | Raise _ => (Failed, text)
              end), w').
Proof.
  intros Hen Hblank Hres Htok Htpl Hgen candidate w'.
  unfold cleanup_traced. rewrite cleanup_guard, Hen, Hblank. cbn [negb orb].
  unfold_monad. rewrite Hres, Htok. unfold ret. cbv beta iota.
  fold (cleanup_messages system_prompt text).
  rewrite Htpl. cbn [calls stdout]. rewrite Hgen. cbn [calls stdout].
  fold (candidate_of prompt response). fold candidate.
  subst w'. rewrite <- app_assoc. cbn [app].
  destruct (PyStr.nonempty candidate); cbn [negb]; [|reflexivity].
  destruct (shorter_than_30_percent candidate text) as [[|]|]; reflexivity.
Qed.

(** What made [cleanup] return through its last [return]. *)
Lemma cleanup_traced_accepted_inv env self text prompt_type max_tokens w out w' :
  cleanup_traced env self text prompt_type max_tokens w = (Ok (Accepted, out), w') ->
  exists system_prompt tokenizer prompt response,
    tc_enabled self = true
    /\ PyStr.all_space text = false
    /\ resolve_prompt (tc_prompts self) prompt_type = Ok system_prompt
    /\ tc_tokenizer self = Some tokenizer
    /\ apply_chat_template env (calls w) tokenizer
         (cleanup_messages system_prompt text) = Ok prompt
    /\ mlx_generate env
         (calls w ++ [CallApplyChatTemplate (cleanup_messages system_prompt text)])
         (tc_model self) tokenizer prompt max_tokens = Ok response
    /\ out = candidate_of prompt response
    /\ PyStr.nonempty out = true
    /\ shorter_than_30_percent out text = Ok false
    /\ w' = {| calls := calls w
                        ++ [CallApplyChatTemplate (cleanup_messages system_prompt text);
                            CallGenerate prompt max_tokens];
               stdout := stdout w |}.
Proof.
  intros H. unfold cleanup_traced in H. rewrite cleanup_guard in H.
  destruct (tc_enabled self) eqn:Hen; [|discriminate H].
  destruct (PyStr.all_space text) eqn:Hblank; [discriminate H|].
  cbn [negb orb] in H. unfold try_except, bind at 1, lift in H.
  destruct (resolve_prompt (tc_prompts self) prompt_type) as [sp|] eqn:Hres;
    [|discriminate H].
  unfold bind at 1, loaded in H.
  destruct (tc_tokenizer self) as [tok|] eqn:Htok; [|discriminate H].
  unfold ret at 1 in H. unfold bind at 1, call in H.
  fold (cleanup_messages sp text) in H.
  destruct (apply_chat_template env (calls w) tok (cleanup_messages sp text))
    as [prompt|] eqn:Htpl; [|discriminate H].
  unfold bind at 1 in H. cbn [calls stdout] in H.
  destruct (mlx_generate env
              (calls w ++ [CallApplyChatTemplate (cleanup_messages sp text)])
              (tc_model self) tok prompt max_tokens) as [response|] eqn:Hgen;
    [|discriminate H].
  fold (candidate_of prompt response) in H. cbn [calls stdout] in H.
  destruct (PyStr.nonempty (candidate_of prompt response)) eqn:Hne;
    cbn [negb] in H; [|discriminate H].
  unfold bind, lift, ret in H.
  destruct (shorter_than_30_percent (candidate_of prompt response) text)
    as [[|]|] eqn:Hshort; try discriminate H.
  inversion H. rewrite <- app_assoc. cbn [app].
  exists sp, tok, prompt, response. repeat split; try assumption; reflexivity.
Qed.

(** X8. Whenever [cleanup] returns something it took from the
    collaborator, that text is not empty, has no white space at either
    end, and (for a raw text below 2^51 characters) is at least three
    tenths as long as the raw text; the raw text was not blank and the
    object was enabled. *)
Theorem accepted_text_is_stripped
    (env : Env) (tc : TextCleanup)
    (text : string) (prompt_type : json) (max_tokens : Z) (w w' : World)
    (out : string) :
  cleanup_traced env tc text prompt_type max_tokens w = (Ok (Accepted, out), w') ->
  PyStr.nonempty out = true
  /\ PyStr.strip out = out
  /\ PyStr.lstrip out = out
  /\ PyStr.rstrip out = out
  /\ (PyStr.len text < 2 ^ 51 -> 3 * PyStr.len text <= 10 * PyStr.len out)
  /\ tc_enabled tc = true
  /\ PyStr.all_space text = false.
Proof.
  intros H.
  destruct (cleanup_traced_accepted_inv _ _ _ _ _ _ _ _ H)
    as (sp & tok & prompt & response & Hen & Hblank & _ & _ & _ & _
        & Hout & Hne & Hshort & _).
  assert (Hs : PyStr.strip out = out).
  { rewrite Hout. unfold candidate_of. apply PyStrMore.strip_idempotent. }
  assert (Hlr : PyStr.lstrip out = out /\ PyStr.rstrip out = out).
  { rewrite <- Hs. apply PyStrMore.strip_stripped. }
  destruct Hlr as [Hl Hr].
  repeat split; try assumption.
  intros Hlen.
  rewrite (shorter_than_30_percent_exact out text
             (PyStrFacts.all_space_false_nonempty text Hblank) Hlen) in Hshort.
  inversion Hshort as [Hlt]. apply Z.ltb_ge in Hlt. exact Hlt.
Qed.

Lemma accepted_text_is_stripped_witness :
  PyStr.nonempty "Hello world, this is a test." = true
  /\ PyStr.strip "Hello world, this is a test." = "Hello world, this is a test."
  /\ PyStr.lstrip "Hello world, this is a test." = "Hello world, this is a test."
  /\ PyStr.rstrip "Hello world, this is a test." = "Hello world, this is a test."
  /\ (PyStr.len "helo wrld this is test" < 2 ^ 51 ->
      3 * PyStr.len "helo wrld this is test"
      <= 10 * PyStr.len "Hello world, this is a test.")
  /\ tc_enabled Demo.tc = true
  /\ PyStr.all_space "helo wrld this is test" = false.
Proof.
  exact (accepted_text_is_stripped Demo.env Demo.tc "helo wrld this is test"
           (JStr "coding") 512 Demo.world0 _ "Hello world, this is a test." eq_refl).
Defined.

(** X9. The candidate is what follows the first [len(prompt)] characters
    of the response: when the collaborator's response is no longer than
    the formatted prompt, or holds only white space past it, nothing is
    left and [cleanup] returns the raw text. *)
Theorem short_response_rejected
    (env : Env) (self : TextCleanup) (text : string) (prompt_type : json)
    (max_tokens : Z) (w : World)
    (system_prompt : json) (tokenizer : handle) (prompt response : string) :
  tc_enabled self = true ->
  PyStr.all_space text = false ->
  resolve_prompt (tc_prompts self) prompt_type = Ok system_prompt ->
  tc_tokenizer self = Some tokenizer ->
  apply_chat_template env (calls w) tokenizer
    (cleanup_messages system_prompt text) = Ok prompt ->
  mlx_generate env
    (calls w ++ [CallApplyChatTemplate (cleanup_messages system_prompt text)])
    (tc_model self) tokenizer prompt max_tokens = Ok response ->
  (String.length response <= String.length prompt)%nat
  \/ PyStr.all_space (PyStr.slice_from (String.length prompt) response) = true ->
  cleanup_traced env self text prompt_type max_tokens w
  = (Ok (Rejected, text),
     {| calls := calls w
                 ++ [CallApplyChatTemplate (cleanup_messages system_prompt text);
                     CallGenerate prompt max_tokens];
        stdout := stdout w |}).
Proof.
  intros Hen Hblank Hres Htok Htpl Hgen Hshort.
  rewrite (cleanup_traced_answered env self text prompt_type max_tokens w
             system_prompt tokenizer prompt response Hen Hblank Hres Htok Htpl Hgen).
  assert (Hc : PyStr.nonempty (candidate_of prompt response) = false).
  { unfold candidate_of. rewrite PyStrFacts.strip_blank.
    destruct Hshort as [Hlen|Hsp].
    - rewrite (PyStrMore.slice_from_short _ _ Hlen). reflexivity.
    - rewrite Hsp. reflexivity. }
  rewrite Hc. reflexivity.
Qed.

Lemma short_response_rejected_witness :
  cleanup_traced Sample.env_echo Demo.tc "helo wrld" (JStr "general") 512 Demo.world0
  = (Ok (Rejected, "helo wrld"),
     {| calls := [CallApplyChatTemplate
                    (cleanup_messages (JStr general_prompt) "helo wrld");
                  CallGenerate "<chat>" 512];
        stdout := [] |}).
Proof.
  refine (short_response_rejected Sample.env_echo Demo.tc "helo wrld"
            (JStr "general") 512 Demo.world0 (JStr general_prompt) 2%N
            "<chat>" "<chat>" eq_refl eq_refl eq_refl eq_refl eq_refl eq_refl _).
  left. cbn. lia.
Defined.

(** X10. A prompt type that cannot be a dictionary key (a list or an
    object, as a request may carry in ["cleanup_prompt"]) makes [cleanup]
    fall back to the raw text before any call to the collaborator; a
    number, a boolean or [None] is bound nowhere and selects the
    ["general"] prompt. *)
Theorem unhashable_prompt_type
    (env : Env) (self : TextCleanup) (text : string) (prompt_type : json)
    (max_tokens : Z) (w : World) (general : json) :
  tc_enabled self = true ->
  PyStr.all_space text = false ->
  tc_prompts self !! "general" = Some general ->
  ((exists items, prompt_type = JArr items) \/ (exists fields, prompt_type = JObj fields) ->
   cleanup_traced env self text prompt_type max_tokens w = (Ok (Failed, text), w))
  /\ ((forall s, prompt_type <> JStr s) ->
      (forall items, prompt_type <> JArr items) ->
      (forall fields, prompt_type <> JObj fields) ->
      resolve_prompt (tc_prompts self) prompt_type = Ok general).
Proof.
  intros Hen Hblank Hgen. split.
  - intros Hbad. unfold cleanup_traced. rewrite cleanup_guard, Hen, Hblank.
    cbn [negb orb]. unfold try_except, bind at 1, lift.
    unfold resolve_prompt. rewrite Hgen.
    destruct Hbad as [[items ->]|[fields ->]]; reflexivity.
  - intros Hs Ha Ho. unfold resolve_prompt. rewrite Hgen.
    destruct prompt_type; try reflexivity.
    + exfalso. eapply Hs. reflexivity.
    + exfalso. eapply Ha. reflexivity.
    + exfalso. eapply Ho. reflexivity.
Qed.

Lemma unhashable_prompt_type_witness :
  cleanup_traced Demo.env Demo.tc "helo wrld" (JArr [JStr "coding"]) 512 Demo.world0
  = (Ok (Failed, "helo wrld"), Demo.world0).
Proof.
  refine (proj1 (unhashable_prompt_type Demo.env Demo.tc "helo wrld"
                   (JArr [JStr "coding"]) 512 Demo.world0 (JStr general_prompt)
                   eq_refl eq_refl eq_refl) _).
  left. eexists. reflexivity.
Defined.

(** ** More on the orchestrator *)

(** X11. An audio path that is a true value but not a string (a number,
    a list) passes the check of the loop and fails in [Path(audio_path)]:
    the response is [{"error": "Transcription failed: <TypeError>"}], not
    the missing-parameter error, and the ASR collaborator is not called. *)
Theorem non_string_audio_path
    (env : Env) (self : TranscriptionServer) (audio_path cleanup_prompt_arg : json)
    (w : World) :
  (forall path, audio_path <> JStr path) ->
  transcribe env self audio_path cleanup_prompt_arg w
  = (Ok (RError ("Transcription failed: " +:+ path_type_error env audio_path)), w)
  /\ (forall line fields,
        json_loads env (PyStr.strip line) = Ok (JObj fields) ->
        dict_get fields "action" = JStr "transcribe" ->
        dict_get fields "audio_path" = audio_path ->
        truthy audio_path = true ->
        handle_line env self line w
        = (Ok Continue,
           {| calls := calls w;
              stdout := stdout w
                        ++ [RError ("Transcription failed: "
                                    +:+ path_type_error env audio_path)] |})).
Proof.
  intros Hns.
  assert (Ht : forall cp, transcribe env self audio_path cp w
                = (Ok (RError ("Transcription failed: "
                               +:+ path_type_error env audio_path)), w)).
  { intros cp. unfold transcribe. unfold_monad.
    destruct audio_path; try reflexivity. exfalso. eapply Hns. reflexivity. }
  split; [apply Ht|].
  intros line fields Hload Hact Hpath Htruthy.
  rewrite (handle_line_transcribe env self line fields w
             (RError ("Transcription failed: " +:+ path_type_error env audio_path)) w
             Hload Hact).
  - reflexivity.
  - rewrite Hpath. exact Htruthy.
  - rewrite Hpath. apply Ht.
Qed.

Lemma non_string_audio_path_witness :
  handle_line Sample.env Demo.server Sample.line_numeric_path Demo.world0
  = (Ok Continue,
     {| calls := [];
        stdout := [RError "Transcription failed: expected str, bytes or os.PathLike object"] |}).
Proof.
  assert (H : forall path, JInt 5 <> JStr path) by (intros path E; discriminate E).
  exact (proj2 (non_string_audio_path Sample.env Demo.server (JInt 5) JNull
                  Demo.world0 H)
           Sample.line_numeric_path _ eq_refl eq_refl eq_refl eq_refl).
Defined.

(** X12. When the ASR collaborator raises on an existing file, the
    response is [{"error": "Transcription failed: <message>"}] with the
    collaborator's message; the refinement collaborator is not called and
    the loop prints that response and goes on. *)
Theorem asr_fault_reported
    (env : Env) (self : TranscriptionServer) (path : string)
    (cleanup_prompt_arg : json) (w : World) (e : exn) :
  path_exists env path = Ok true ->
  asr_transcribe env (calls w) (model self) path = Raise e ->
  transcribe env self (JStr path) cleanup_prompt_arg w
  = (Ok (RError ("Transcription failed: " +:+ exn_str e)),
     {| calls := calls w ++ [CallTranscribe path]; stdout := stdout w |})
  /\ (forall line fields,
        PyStr.nonempty path = true ->
        json_loads env (PyStr.strip line) = Ok (JObj fields) ->
        dict_get fields "action" = JStr "transcribe" ->
        dict_get fields "audio_path" = JStr path ->
        dict_get fields "cleanup_prompt" = cleanup_prompt_arg ->
        handle_line env self line w
        = (Ok Continue,
           {| calls := calls w ++ [CallTranscribe path];
              stdout := stdout w
                        ++ [RError ("Transcription failed: " +:+ exn_str e)] |})).
Proof.
  intros Hex Hasr.
  assert (Ht : transcribe env self (JStr path) cleanup_prompt_arg w
               = (Ok (RError ("Transcription failed: " +:+ exn_str e)),
                  {| calls := calls w ++ [CallTranscribe path]; stdout := stdout w |})).
  { unfold transcribe. unfold_monad. rewrite Hex. cbn [negb]. rewrite Hasr.
    reflexivity. }
  split; [exact Ht|].
  intros line fields Hne Hload Hact Hpath Hcp.
  rewrite (handle_line_transcribe env self line fields w
             (RError ("Transcription failed: " +:+ exn_str e))
             {| calls := calls w ++ [CallTranscribe path]; stdout := stdout w |}
             Hload Hact).
  - reflexivity.
  - rewrite Hpath. exact Hne.
  - rewrite Hpath, Hcp. exact Ht.
Qed.

Lemma asr_fault_reported_witness :
  transcribe Demo.env_asr_fault Demo.server (JStr "/tmp/a.wav") JNull Demo.world0
  = (Ok (RError "Transcription failed: cannot decode audio"),
     {| calls := [CallTranscribe "/tmp/a.wav"]; stdout := [] |}).
Proof.
  exact (proj1 (asr_fault_reported Demo.env_asr_fault Demo.server "/tmp/a.wav" JNull
                  Demo.world0 (Exception "cannot decode audio") eq_refl eq_refl)).
Defined.

(** X13. With refinement off, whichever way (no [TextCleanup] object,
    [cleanup_enabled] false, or an object that is not enabled), a
    transcription is passed through: the text is the raw one,
    [original_text] is absent, and the only call made is the one to the
    ASR collaborator. *)
Theorem refinement_off_passes_through
    (env : Env) (self : TranscriptionServer) (path : string)
    (cleanup_prompt_arg : json) (w : World) (result : AlignedResult) :
  text_cleanup self = None
  \/ cleanup_enabled self = false
  \/ (exists tc, text_cleanup self = Some tc /\ tc_enabled tc = false) ->
  path_exists env path = Ok true ->
  asr_transcribe env (calls w) (model self) path = Ok result ->
  transcribe env self (JStr path) cleanup_prompt_arg w
  = (Ok (RTranscription (result_text result) None
           (map sentence_entry (result_sentences result))),
     {| calls := calls w ++ [CallTranscribe path]; stdout := stdout w |}).
Proof.
  intros Hoff Hex Hasr. unfold transcribe.
  unfold try_except, bind at 1. unfold ret at 1.
  unfold bind at 1, lift. rewrite Hex. cbn [negb].
  unfold bind at 1, call. rewrite Hasr. unfold bind at 1.
  set (w1 := {| calls := calls w ++ [CallTranscribe path]; stdout := stdout w |}).
  assert (Hstep :
    (match text_cleanup self with
     | Some tc =>
         if cleanup_enabled self
         then cleanup env tc (result_text result)
                (prompt_type_of self cleanup_prompt_arg) 512
         else ret (result_text result)
     | None => ret (result_text result)
     end) w1 = (Ok (result_text result), w1)).
  { destruct Hoff as [Hnone|[Hdis|(tc & Htc & Hen)]].
    - rewrite Hnone. reflexivity.
    - rewrite Hdis. destruct (text_cleanup self); reflexivity.
    - rewrite Htc. destruct (cleanup_enabled self); [|reflexivity].
      apply (cleanup_of_traced env tc (result_text result) _ 512 w1
               (Skipped, result_text result) w1).
      unfold cleanup_traced. rewrite Hen. reflexivity. }
  rewrite Hstep. unfold ret. rewrite String.eqb_refl. reflexivity.
Qed.

Lemma refinement_off_passes_through_witness :
  transcribe Demo.env Sample.server_plain (JStr "/tmp/a.wav") (JStr "coding")
    Demo.world0
  = (Ok (RTranscription "hello world this is a test" None
           (map sentence_entry (result_sentences Demo.heard))),
     {| calls := [CallTranscribe "/tmp/a.wav"]; stdout := [] |}).
Proof.
  refine (refinement_off_passes_through Demo.env Sample.server_plain "/tmp/a.wav"
            (JStr "coding") Demo.world0 Demo.heard _ eq_refl eq_refl).
  right. left. reflexivity.
Defined.

(** X14. A transcription with refinement on, end to end: one call to the
    ASR collaborator, then the chat template and the generation for the
    raw text, always with a cap of 512 tokens and the system prompt
    resolved from the request's [cleanup_prompt] (the server's own prompt
    name when the request gives none).  The response carries the accepted
    candidate with the raw text as [original_text] when they differ, and
    the raw text alone otherwise. *)
Theorem transcribe_refined
    (env : Env) (self : TranscriptionServer) (tc : TextCleanup) (path : string)
    (cleanup_prompt_arg : json) (w : World) (result : AlignedResult)
    (system_prompt : json) (tokenizer : handle) (prompt response : string) :
  text_cleanup self = Some tc ->
  cleanup_enabled self = true ->
  tc_enabled tc = true ->
  tc_tokenizer tc = Some tokenizer ->
  path_exists env path = Ok true ->
  asr_transcribe env (calls w) (model self) path = Ok result ->
  let raw := result_text result in
  let messages := cleanup_messages system_prompt raw in
  PyStr.all_space raw = false ->
  PyStr.len raw < 2 ^ 51 ->
  resolve_prompt (tc_prompts tc)
    (if truthy cleanup_prompt_arg then cleanup_prompt_arg
     else JStr (cleanup_prompt self)) = Ok system_prompt ->
  apply_chat_template env (calls w ++ [CallTranscribe path]) tokenizer messages
  = Ok prompt ->
  mlx_generate env
    ((calls w ++ [CallTranscribe path]) ++ [CallApplyChatTemplate messages])
    (tc_model tc) tokenizer prompt 512 = Ok response ->
  let candidate := candidate_of prompt response in
  let accepted :=
    PyStr.nonempty candidate
    && negb (10 * PyStr.len candidate <? 3 * PyStr.len raw) in
  transcribe env self (JStr path) cleanup_prompt_arg w
  = (Ok (RTranscription
           (if accepted then candidate else raw)
           (if accepted && negb (String.eqb candidate raw) then Some raw else None)
           (map sentence_entry (result_sentences result))),
     {| calls := calls w
                 ++ [CallTranscribe path; CallApplyChatTemplate messages;
                     CallGenerate prompt 512];
        stdout := stdout w |}).
Proof.
  intros Htc Hon Hen Htok Hex Hasr raw messages Hblank Hlen Hres Htpl Hgen
         candidate accepted.
  unfold transcribe.
  unfold try_except, bind at 1. unfold ret at 1.
  unfold bind at 1, lift. rewrite Hex. cbn [negb].
  unfold bind at 1, call. rewrite Hasr. unfold bind at 1.
  rewrite Htc, Hon. fold raw.
  set (w1 := {| calls := calls w ++ [CallTranscribe path]; stdout := stdout w |}).
  pose proof (cleanup_traced_answered env tc raw (prompt_type_of self cleanup_prompt_arg)
                512 w1 system_prompt tokenizer prompt response
                Hen Hblank Hres Htok Htpl Hgen) as Hc.
  cbv zeta in Hc. fold candidate in Hc.
  rewrite (shorter_than_30_percent_exact candidate raw
             (PyStrFacts.all_space_false_nonempty raw Hblank) Hlen) in Hc.
  rewrite (cleanup_of_traced _ _ _ _ _ _ _ _ Hc). unfold ret.
  subst w1 accepted. cbn [calls stdout]. rewrite <- !app_assoc. cbn [app].
  destruct (PyStr.nonempty candidate); cbn [negb andb snd];
    [|rewrite String.eqb_refl; reflexivity].
  destruct (10 * PyStr.len candidate <? 3 * PyStr.len raw); cbn [negb andb snd];
    [rewrite String.eqb_refl; reflexivity|reflexivity].
Qed.

Lemma transcribe_refined_witness :
  transcribe Demo.env Demo.server (JStr "/tmp/a.wav") (JStr "coding") Demo.world0
  = (Ok (RTranscription "Hello world, this is a test."
           (Some "hello world this is a test")
           (map sentence_entry (result_sentences Demo.heard))),
     {| calls := [CallTranscribe "/tmp/a.wav";
                  CallApplyChatTemplate
                    (cleanup_messages (JStr coding_prompt) "hello world this is a test");
                  CallGenerate "<chat>" 512];
        stdout := [] |}).
Proof.
  exact (transcribe_refined Demo.env Demo.server Demo.tc "/tmp/a.wav" (JStr "coding")
           Demo.world0 Demo.heard (JStr coding_prompt) 2%N "<chat>"
           ("<chat>" +:+ " Hello world, this is a test. ")
           eq_refl eq_refl eq_refl eq_refl eq_refl eq_refl eq_refl eq_refl eq_refl
           eq_refl eq_refl).
Defined.

(** ** Construction and startup *)

Lemma initial_prompts_general custom_prompts :
  is_Some (initial_prompts custom_prompts !! "general").
Proof.
  rewrite initial_prompts_lookup.
  destruct (last_binding _ _); [eauto|]. rewrite default_prompts_general. eauto.
Qed.

(** What the constructor of [TextCleanup] does, case by case. *)
Lemma TextCleanup_init_cases env name enabled custom_prompts w :
  TextCleanup_init env name enabled custom_prompts w
  = if enabled && mlx_lm_installed env then
      match mlx_load env (calls w) name with
      | Ok mt =>
          (Ok {| tc_model_name := name; tc_enabled := true;
                 tc_model := Some (fst mt); tc_tokenizer := Some (snd mt);
                 tc_prompts := initial_prompts custom_prompts |},
           {| calls := calls w ++ [CallLoad name]; stdout := stdout w |})
      | Raise e =>
          (Raise e, {| calls := calls w ++ [CallLoad name]; stdout := stdout w |})
      end
    else
      (Ok {| tc_model_name := name; tc_enabled := false;
             tc_model := None; tc_tokenizer := None;
             tc_prompts := initial_prompts custom_prompts |}, w).
Proof.
  unfold TextCleanup_init. cbn [tc_enabled].
  destruct (enabled && mlx_lm_installed env); [|reflexivity].
  unfold TextCleanup_load_model. unfold_monad.
  cbn [tc_model_name tc_enabled tc_prompts].
  destruct (mlx_load env (calls w) name); reflexivity.
Qed.

(** Every object the constructor returns satisfies the invariant. *)
Lemma TextCleanup_init_ok env name enabled custom_prompts w self w' :
  TextCleanup_init env name enabled custom_prompts w = (Ok self, w') ->
  TextCleanup_ok self
  /\ tc_enabled self = enabled && mlx_lm_installed env
  /\ (tc_enabled self = true ->
      is_Some (tc_model self)
      /\ calls w' = (calls w ++ [CallLoad name])%list)
  /\ tc_prompts self = initial_prompts custom_prompts
  /\ stdout w' = stdout w.
Proof.
  rewrite TextCleanup_init_cases. destruct (enabled && mlx_lm_installed env).
  - destruct (mlx_load env (calls w) name) as [mt|]; [|discriminate].
    intros H. inversion H. subst self w'. cbn.
    repeat split; eauto using initial_prompts_general.
  - intros H. inversion H. subst self w'. cbn.
    repeat split; eauto using initial_prompts_general; discriminate.
Qed.

(** X15. The constructor of [TextCleanup] loads the model only when
    cleanup is asked for and [mlx_lm] is installed, and raises only when
    that load fails.  Every object it returns has a ["general"] prompt
    registered and, when enabled, a loaded model and tokenizer; it is
    enabled exactly when cleanup was asked for and [mlx_lm] is there. *)
Theorem TextCleanup_init_invariant
    (env : Env) (name : string) (enabled : bool)
    (custom_prompts : option (list (string * json))) (w : World) :
  (enabled && mlx_lm_installed env = false ->
   exists self,
     TextCleanup_init env name enabled custom_prompts w = (Ok self, w)
     /\ tc_enabled self = false)
  /\ (forall e w',
        TextCleanup_init env name enabled custom_prompts w = (Raise e, w') ->
        enabled && mlx_lm_installed env = true
        /\ mlx_load env (calls w) name = Raise e)
  /\ (forall self w',
        TextCleanup_init env name enabled custom_prompts w = (Ok self, w') ->
        TextCleanup_ok self
        /\ tc_enabled self = enabled && mlx_lm_installed env
        /\ (tc_enabled self = true ->
            is_Some (tc_model self)
            /\ calls w' = (calls w ++ [CallLoad name])%list)
        /\ tc_prompts self = initial_prompts custom_prompts).
Proof.
  rewrite TextCleanup_init_cases. split; [|split].
  - intros ->. eexists. split; reflexivity.
  - intros e w'. destruct (enabled && mlx_lm_installed env); [|discriminate].
    destruct (mlx_load env (calls w) name); [discriminate|].
    intros H. inversion H. split; reflexivity.
  - intros self w' H. rewrite <- TextCleanup_init_cases in H.
    destruct (TextCleanup_init_ok _ _ _ _ _ _ _ H) as (H1 & H2 & H3 & H4 & _).
    split; [exact H1|]. split; [exact H2|]. split; [exact H3|exact H4].
Qed.

Lemma TextCleanup_init_invariant_witness :
  exists self w',
    TextCleanup_init Demo.env "llm" true (Some Demo.overrides) Demo.world0
    = (Ok self, w')
    /\ TextCleanup_ok self
    /\ tc_enabled self = true
    /\ calls w' = [CallLoad "llm"].
Proof.
  eexists _, _. split; [reflexivity|].
  destruct (proj2 (proj2 (TextCleanup_init_invariant Demo.env "llm" true
                            (Some Demo.overrides) Demo.world0)) _ _ eq_refl)
    as (Hok & Hen & Hloaded & _).
  split; [exact Hok|]. split; [exact Hen|]. exact (proj2 (Hloaded eq_refl)).
Defined.

(** X16. [add_custom_prompt] registers or replaces one prompt: the name
    then resolves to the new text, the object invariant is kept, and any
    other name resolves as before unless the name replaced is
    ["general"], the fallback of every unregistered name. *)
Theorem add_custom_prompt_resolves
    (self : TextCleanup) (name prompt : string) :
  TextCleanup_ok self ->
  let self' := add_custom_prompt self name prompt in
  TextCleanup_ok self'
  /\ resolve_prompt (tc_prompts self') (JStr name) = Ok (JStr prompt)
  /\ (forall other,
        other <> name -> name <> "general" ->
        resolve_prompt (tc_prompts self') (JStr other)
        = resolve_prompt (tc_prompts self) (JStr other))
  /\ (forall other,
        name = "general" -> tc_prompts self !! other = None ->
        resolve_prompt (tc_prompts self') (JStr other) = Ok (JStr prompt))
  /\ tc_enabled self' = tc_enabled self
  /\ tc_tokenizer self' = tc_tokenizer self.
Proof.
  intros [[general Hg] Hloaded] self'.
  assert (Hg' : is_Some (tc_prompts self' !! "general")).
  { subst self'. cbn [add_custom_prompt tc_prompts].
    destruct (String.eqb_spec name "general") as [->|Hne].
    - rewrite lookup_insert_eq. eauto.
    - rewrite lookup_insert_ne by exact Hne. eauto. }
  split; [split; [exact Hg'|exact Hloaded]|].
  destruct Hg' as [general' Hg'].
  subst self'. cbn [add_custom_prompt tc_prompts tc_enabled tc_tokenizer] in *.
  split; [|split; [|split; [|split; reflexivity]]].
  - unfold resolve_prompt. rewrite Hg', lookup_insert_eq. reflexivity.
  - intros other Hother Hname. unfold resolve_prompt.
    rewrite !lookup_insert_ne by congruence. reflexivity.
  - intros other -> Hnone. unfold resolve_prompt.
    rewrite lookup_insert_eq in Hg'. inversion Hg'; subst general'.
    rewrite lookup_insert_eq.
    destruct (String.eqb_spec "general" other) as [<-|Hne].
    + rewrite lookup_insert_eq. reflexivity.
    + rewrite lookup_insert_ne by exact Hne. rewrite Hnone. reflexivity.
Qed.

Lemma add_custom_prompt_resolves_witness :
  resolve_prompt (tc_prompts (add_custom_prompt Demo.tc "terse" "Shorten."))
    (JStr "terse") = Ok (JStr "Shorten.").
Proof.
  assert (Hok : TextCleanup_ok Demo.tc).
  { split; [|intros _]; eexists; reflexivity. }
  exact (proj1 (proj2 (add_custom_prompt_resolves Demo.tc "terse" "Shorten." Hok))).
Defined.

(** What the constructor of [TranscriptionServer] does, case by case. *)
Lemma TranscriptionServer_init_cases env name enabled cleanup_model prompt_name w :
  let w1 := {| calls := calls w ++ [CallFromPretrained name]; stdout := stdout w |} in
  let server m tc :=
    {| model := m; model_name := name; cleanup_enabled := enabled;
       cleanup_prompt := prompt_name; text_cleanup := tc |} in
  TranscriptionServer_init env name enabled cleanup_model prompt_name w
  = match from_pretrained env (calls w) name with
    | Raise e => (Raise e, w1)
    | Ok m =>
        if enabled && text_cleanup_importable env then
          match TextCleanup_init env cleanup_model true
                  (Some (custom_prompts_file env)) w1 with
          | (Ok tc, w2) => (Ok (server m (Some tc)), w2)
          | (Raise _, w2) => (Ok (server m None), w2)
          end
        else (Ok (server m None), w1)
    end.
Proof.
  intros w1 server.
  unfold TranscriptionServer_init, TranscriptionServer_load_model, load_custom_prompts.
  unfold_monad.
  destruct (from_pretrained env (calls w) name) as [m|e]; [|reflexivity].
  fold w1. destruct (enabled && text_cleanup_importable env); [|reflexivity].
  destruct (TextCleanup_init env cleanup_model true (Some (custom_prompts_file env)) w1)
    as [[tc|e] w2]; reflexivity.
Qed.

(** X17. The constructor of [TranscriptionServer] raises only when the
    speech model cannot be loaded, and then it has not touched the
    refinement model.  Once the speech model is loaded it always returns
    a server: without a [TextCleanup] object when cleanup is switched off
    or the refinement model fails to load, and otherwise with one that
    satisfies the object invariant; it prints nothing. *)
Theorem TranscriptionServer_init_outcomes
    (env : Env) (name : string) (enabled : bool)
    (cleanup_model prompt_name : string) (w : World) :
  (forall e,
      from_pretrained env (calls w) name = Raise e ->
      TranscriptionServer_init env name enabled cleanup_model prompt_name w
      = (Raise e,
         {| calls := calls w ++ [CallFromPretrained name]; stdout := stdout w |}))
  /\ (forall m,
        from_pretrained env (calls w) name = Ok m ->
        exists self w',
          TranscriptionServer_init env name enabled cleanup_model prompt_name w
          = (Ok self, w')
          /\ model self = m
          /\ cleanup_enabled self = enabled
          /\ cleanup_prompt self = prompt_name
          /\ stdout w' = stdout w
          /\ (enabled = false -> text_cleanup self = None
              /\ calls w' = (calls w ++ [CallFromPretrained name])%list)
          /\ (forall tc, text_cleanup self = Some tc ->
                TextCleanup_ok tc
                /\ tc_enabled tc = mlx_lm_installed env
                /\ tc_prompts tc = initial_prompts (Some (custom_prompts_file env)))).
Proof.
  rewrite TranscriptionServer_init_cases. split.
  - intros e ->. reflexivity.
  - intros m ->.
    set (w1 := {| calls := calls w ++ [CallFromPretrained name]; stdout := stdout w |}).
    destruct (enabled && text_cleanup_importable env) eqn:Hen.
    + pose proof (TextCleanup_init_cases env cleanup_model true
                    (Some (custom_prompts_file env)) w1) as Hcases.
      destruct (TextCleanup_init env cleanup_model true
                  (Some (custom_prompts_file env)) w1) as [[tc|e] w2] eqn:Hinit.
      * destruct (TextCleanup_init_ok _ _ _ _ _ _ _ Hinit)
          as (Hok & Hte & _ & Hp & Hs).
        eexists _, _. split; [reflexivity|].
        cbn [model cleanup_enabled cleanup_prompt text_cleanup].
        split; [reflexivity|]. split; [reflexivity|]. split; [reflexivity|].
        split; [exact Hs|]. split.
        -- intros ->. discriminate Hen.
        -- intros tc0 H. inversion H. subst tc0.
           split; [exact Hok|]. split; [exact Hte|exact Hp].
      * assert (Hs : stdout w2 = stdout w).
        { cbn [andb] in Hcases. destruct (mlx_lm_installed env);
            [destruct (mlx_load env (calls w1) cleanup_model)|];
            inversion Hcases; reflexivity. }
        eexists _, _. split; [reflexivity|].
        cbn [model cleanup_enabled cleanup_prompt text_cleanup].
        split; [reflexivity|]. split; [reflexivity|]. split; [reflexivity|].
        split; [exact Hs|]. split.
        -- intros ->. discriminate Hen.
        -- intros tc0 H. discriminate H.
    + eexists _, _. split; [reflexivity|].
      cbn [model cleanup_enabled cleanup_prompt text_cleanup].
      split; [reflexivity|]. split; [reflexivity|]. split; [reflexivity|].
      split; [reflexivity|]. split.
      -- intros _. split; reflexivity.
      -- intros tc0 H. discriminate H.
Qed.

Lemma TranscriptionServer_init_outcomes_witness :
  TranscriptionServer_init Sample.env_startup_fault "asr" true "llm" "general"
    Demo.world0
  = (Raise (Exception "no such model"),
     {| calls := [CallFromPretrained "asr"]; stdout := [] |}).
Proof.
  exact (proj1 (TranscriptionServer_init_outcomes Sample.env_startup_fault "asr" true
                  "llm" "general" Demo.world0)
           (Exception "no such model") eq_refl).
Defined.


